(** * Hardware isolation utilities of bmcweb (redfish-core/include/utils/hw_isolation.hpp)

    A shallow embedding of [redfish::hw_isolation_utils]: the isolate and
    de-isolate call chains, the request orchestration
    [processHardwareIsolationReq], the severity helper [setSeverity] and the
    status aggregation [getHwIsolationStatus].

    The D-Bus connection is an environment of scripted replies ([Bus]); every
    [async_method_call] is recorded and its handler is run on the reply, so a
    chain of nested handlers is a chain of continuations over an explicit
    state.  The state of a request is the JSON value of the response and the
    trace of its events: the calls put on the bus and the [messages::...]
    calls made on the response. *)

From Stdlib Require Import String Ascii List ZArith Lia Bool Arith DecimalString.
Import ListNotations.
Open Scope string_scope.

Set Warnings "-register-all".

(** ** nlohmann::json, as far as the utilities use it *)

Module nlohmann.

Inductive json :=
| JNull
| JBool (b : bool)
| JNumber (n : Z)
| JString (s : string)
| JArray (elems : list json)
| JObject (members : list (string * json)).

(** Members of an object, looked up and stored by key.  The key order of
    [std::map] is not modelled: a stored key keeps its place, a new key goes
    last. *)
Fixpoint obj_find (k : string) (m : list (string * json)) : option json :=
  match m with
  | [] => None
  | (k', v) :: rest => if k' =? k then Some v else obj_find k rest
  end.

Fixpoint obj_put (k : string) (v : json) (m : list (string * json))
  : list (string * json) :=
  match m with
  | [] => [(k, v)]
  | (k', v') :: rest =>
      if k' =? k then (k', v) :: rest else (k', v') :: obj_put k v rest
  end.

(** [operator[](size_type)] on an array fills the array with nulls up to the
    index when the index is past the end. *)
Fixpoint arr_put (i : nat) (v : json) (l : list json) : list json :=
  match i, l with
  | O, [] => [v]
  | O, _ :: rest => v :: rest
  | S i', [] => JNull :: arr_put i' v []
  | S i', x :: rest => x :: arr_put i' v rest
  end.

(** One application of [operator[]]: by key or by index. *)
Inductive selector :=
| Key (k : string)
| Index (i : nat).

(** The element a selector refers to, a null value being converted to an
    empty object or array first; [None] is the [type_error] exception. *)
Definition child (sel : selector) (j : json) : option json :=
  match sel, j with
  | Key k, JNull => Some JNull
  | Key k, JObject m =>
      match obj_find k m with Some v => Some v | None => Some JNull end
  | Index i, JNull => Some JNull
  | Index i, JArray l => Some (nth i l JNull)
  | _, _ => None
  end.

Definition put_child (sel : selector) (v : json) (j : json) : json :=
  match sel, j with
  | Key k, JNull => JObject [(k, v)]
  | Key k, JObject m => JObject (obj_put k v m)
  | Index i, JNull => JArray (arr_put i v [])
  | Index i, JArray l => JArray (arr_put i v l)
  | _, _ => j
  end.

(** [j[s1][s2]... = v] for a chain of [operator[]] applications. *)
Fixpoint assign (path : list selector) (v : json) (j : json) : option json :=
  match path with
  | [] => Some v
  | sel :: rest =>
      match child sel j with
      | None => None
      | Some c =>
          match assign rest v c with
          | None => None
          | Some c' => Some (put_child sel c' j)
          end
      end
  end.

Fixpoint lookup (path : list selector) (j : json) : option json :=
  match path with
  | [] => Some j
  | Key k :: rest =>
      match j with
      | JObject m =>
          match obj_find k m with
          | Some c => lookup rest c
          | None => None
          end
      | _ => None
      end
  | Index i :: rest =>
      match j with
      | JArray l =>
          match nth_error l i with
          | Some c => lookup rest c
          | None => None
          end
      | _ => None
      end
  end.

(** *** json_pointer *)

Definition is_digit (c : ascii) : bool :=
  let n := nat_of_ascii c in Nat.leb 48 n && Nat.leb n 57.

Fixpoint all_digits (s : string) : bool :=
  match s with
  | EmptyString => true
  | String c rest => is_digit c && all_digits rest
  end.

Fixpoint digits_value (acc : nat) (s : string) : nat :=
  match s with
  | EmptyString => acc
  | String c rest => digits_value (10 * acc + (nat_of_ascii c - 48))%nat rest
  end.

(** [json_pointer::array_index]: a decimal number without a leading zero
    (other than "0" itself); anything else throws. *)
Definition array_index (tok : string) : option nat :=
  match tok with
  | EmptyString => None
  | String c rest =>
      if is_digit c && all_digits rest then
        if Nat.eqb (nat_of_ascii c) 48 && negb (rest =? "") then None
        else Some (digits_value 0 tok)
      else None
  end.

(** [json_pointer::get_unchecked], one reference token: on a null value a
    token of digits (or "-") makes an array and any other an object; an
    object takes the token as key, an array as index ("-" is the index past
    the end), any other value throws. *)
Definition resolve_token (tok : string) (j : json) : option selector :=
  match j with
  | JNull =>
      if all_digits tok || (tok =? "-") then
        if tok =? "-" then Some (Index 0) else option_map Index (array_index tok)
      else Some (Key tok)
  | JObject _ => Some (Key tok)
  | JArray l =>
      if tok =? "-" then Some (Index (length l))
      else option_map Index (array_index tok)
  | _ => None
  end.

(** [j[ptr] = v] for a json_pointer given by its reference tokens. *)
Fixpoint assign_pointer (toks : list string) (v : json) (j : json)
  : option json :=
  match toks with
  | [] => Some v
  | tok :: rest =>
      match resolve_token tok j with
      | None => None
      | Some sel =>
          match child sel j with
          | None => None
          | Some c =>
              match assign_pointer rest v c with
              | None => None
              | Some c' => Some (put_child sel c' j)
              end
          end
      end
  end.

End nlohmann.
Import nlohmann.

(** ** The messages vocabulary (redfish::messages)

  Each [messages::x(aResp->res, args...)] call is recorded, with its
  arguments, in the response. *)

Module messages.

Inductive Outcome :=
| success
| internalError
| propertyValueIncorrect (arg1 arg2 : string)
| propertyNotWritable (arg1 : string)
| resourceInStandby
| resourceAlreadyExists (arg1 arg2 arg3 : string)
| createLimitReachedForResource
| resourceNotFound (arg1 arg2 : string).

End messages.
Import messages.

(** ** The bus and the state of one request *)

(** [boost::system::error_code] by its [value()]; it converts to [true] when
    the value is not zero. *)
Definition error_code := Z.

Definition failed (ec : error_code) : bool := negb (ec =? 0)%Z.

(** The errno value the object mapper answers with when a path has no such
    association (Linux <errno.h>). *)
Definition EBADR : Z := 53.

Inductive Arg :=
| ArgString (s : string)
| ArgPath (p : string)
| ArgInt (n : Z)
| ArgStrings (l : list string).

(** The arguments [async_method_call] is given after the handler. *)
Record Call := mkCall {
  service : string;
  objpath : string;
  interf : string;
  method : string;
  args : list Arg
}.

(** [sd_bus_error], the result of [msg.get_error()] when it is not null. *)
Record sd_bus_error := { name : string; errmsg : string }.

Definition GetObjectType := list (string * list string).

Definition AssociationsValType := list (string * string * string).

(** [std::variant<std::string, uint64_t, AssociationsValType>] *)
Inductive PropertyValue :=
| VString (s : string)
| VUint64 (n : Z)
| VAssociations (a : AssociationsValType).

Definition HwStausEventPropertiesType := list (string * PropertyValue).

(** The replies of the bus, one field per handler signature.  A reply may
    depend on the calls made so far.  The endpoints variant has the single
    alternative [std::vector<std::string>]; [None] is the value for which
    [std::get_if] returns null. *)
Record Bus := {
  paths_reply : list Call -> Call -> error_code * list string;
  object_reply : list Call -> Call -> error_code * GetObjectType;
  endpoints_reply : list Call -> Call -> error_code * option (list string);
  message_reply : list Call -> Call -> error_code * option sd_bus_error;
  properties_reply :
    list Call -> Call -> error_code * HwStausEventPropertiesType
}.

(** [message_registries::Message], the field the utilities read. *)
Record Message := { message : string }.

(** Functions of other headers and libraries that the utilities call:
    [sdbusplus::message::object_path::filename] and [parent_path],
    [crow::utility::getDateTime], [message_registries::getMessage], and the
    reference the error-log helper stores for an error-log object. *)
Record Extern := {
  filename : string -> string;
  parent_path : string -> string;
  getDateTime : Z -> string;
  getMessage : string -> option Message;
  errorLogRef : string -> bool -> json
}.

(** What a request does that others can see: a call put on the bus, and a
    message written to the response. *)
Inductive Event :=
| Called (c : Call)
| Wrote (o : Outcome).

(** The state of one request: the JSON value of [aResp->res] and the events
    so far, in the order they happened.  What a [messages::] call stores in
    the JSON (the error object and the message annotations) is not part of
    [jsonValue] here; the call is an event. *)
Record State := mkState {
  jsonValue : json;
  trace : list Event
}.

Fixpoint calls_of (t : list Event) : list Call :=
  match t with
  | [] => []
  | Called c :: rest => c :: calls_of rest
  | Wrote _ :: rest => calls_of rest
  end.

Fixpoint written_of (t : list Event) : list Outcome :=
  match t with
  | [] => []
  | Called _ :: rest => written_of rest
  | Wrote o :: rest => o :: written_of rest
  end.

(** The calls put on the bus so far. *)
Definition calls (st : State) : list Call := calls_of (trace st).

(** The messages written to the response so far. *)
Definition written (st : State) : list Outcome := written_of (trace st).

Definition write (o : Outcome) (st : State) : State :=
  mkState (jsonValue st) (trace st ++ [Wrote o]).

Definition log_call (c : Call) (st : State) : State :=
  mkState (jsonValue st) (trace st ++ [Called c]).

Definition set_json (j : json) (st : State) : State :=
  mkState j (trace st).

(** How a call ends: it returned a value; an exception of the JSON library
    left it; or it ran into undefined behaviour (element access on an empty
    vector), after which the code promises nothing.  The state is the one
    reached at that point. *)
Inductive Exec (A : Type) :=
| Returned (a : A) (st : State)
| Threw (st : State)
| Undefined (st : State).

Arguments Returned {A} a st.
Arguments Threw {A} st.
Arguments Undefined {A} st.

Definition final {A : Type} (e : Exec A) : State :=
  match e with
  | Returned _ st => st
  | Threw st => st
  | Undefined st => st
  end.

(** Code that runs on the state of the request. *)
Definition M (A : Type) : Type := State -> Exec A.

Definition ret {A : Type} (a : A) : M A := fun st => Returned a st.

Definition bind {A B : Type} (m : M A) (k : A -> M B) : M B :=
  fun st =>
    match m st with
    | Returned a st' => k a st'
    | Threw st' => Threw st'
    | Undefined st' => Undefined st'
    end.

Notation "x <- m ;; k" := (bind m (fun x => k))
  (at level 61, m at next level, right associativity).
Notation "m ;; k" := (bind m (fun _ => k))
  (at level 61, right associativity).

(** [messages::o(aResp->res, ...)] *)
Definition respond (o : Outcome) : M unit :=
  fun st => Returned tt (write o st).

(** An assignment into [aResp->res.jsonValue]. *)
Definition store (upd : json -> option json) : M unit :=
  fun st =>
    match upd (jsonValue st) with
    | Some j => Returned tt (set_json j st)
    | None => Threw st
    end.

Definition undefined {A : Type} : M A := fun st => Undefined st.

(** [crow::connections::systemBus->async_method_call(handler, args...)]: the
    call goes on the bus and the handler runs on the reply. *)
Definition async_method_call {A : Type}
  (reply : list Call -> Call -> error_code * A)
  (handler : error_code -> A -> M unit) (c : Call) : M unit :=
  fun st =>
    let (ec, a) := reply (calls st) c in
    handler ec a (log_call c st).

(** What the body of a range-for loop did: it reached its end, or it left the
    enclosing handler with [return]. *)
Inductive Flow := Continue | Return.

(** A range-for loop that is the last statement of its handler. *)
Fixpoint for_each {A : Type} (body : A -> M Flow) (l : list A) : M unit :=
  match l with
  | [] => ret tt
  | x :: rest =>
      f <- body x ;;
      match f with
      | Continue => for_each body rest
      | Return => ret tt
      end
  end.

(** [std::to_string] has no overload for [bool]: the argument is promoted to
    [int]. *)
Definition to_string_bool (b : bool) : string := if b then "1" else "0".

Definition to_string (n : nat) : string :=
  NilEmpty.string_of_uint (Nat.to_uint n).

(** [std::vector::back()]; [None] on an empty vector, where it is undefined. *)
Fixpoint back {A : Type} (l : list A) : option A :=
  match l with
  | [] => None
  | [x] => Some x
  | _ :: rest => back rest
  end.

(** [std::string::replace(pos, len, str)] *)
Definition replace (pos len : nat) (str s : string) : string :=
  substring 0 pos s ++ str
  ++ substring (pos + len) (String.length s - (pos + len)) s.

(** ** redfish::hw_isolation_utils *)

Section hw_isolation_utils.

Variable ext : Extern.
Variable bus : Bus.

Definition isolateResource
  (resourceName resourceId resourceObjPath hwIsolationDbusName : string)
  : M unit :=
  async_method_call (message_reply bus)
    (fun ec get_error =>
       if negb (failed ec) then respond success
       else
         match get_error with
         | None => respond internalError
         | Some dbusError =>
             if name dbusError
                =? "xyz.openbmc_project.Common.Error.InvalidArgument"
             then
               let isolate := false in
               respond
                 (propertyValueIncorrect "@odata.id" (to_string_bool isolate))
             else if name dbusError
                     =? "xyz.openbmc_project.Common.Error.NotAllowed"
             then respond (propertyNotWritable "Enabled")
             else if name dbusError
                     =? "xyz.openbmc_project.Common.Error.Unavailable"
             then respond resourceInStandby
             else if name dbusError
                     =? "xyz.openbmc_project.HardwareIsolation.Error.IsolatedAlready"
             then
               respond (resourceAlreadyExists "@odata.id" resourceName resourceId)
             else if name dbusError
                     =? "xyz.openbmc_project.Common.Error.TooManyResources"
             then respond createLimitReachedForResource
             else respond internalError
         end)
    (mkCall hwIsolationDbusName "/xyz/openbmc_project/hardware_isolation"
       "xyz.openbmc_project.HardwareIsolation.Create" "Create"
       [ArgPath resourceObjPath;
        ArgString "xyz.openbmc_project.HardwareIsolation.Entry.Type.Manual"]).

Definition deisolateResource (resourceObjPath hwIsolationDbusName : string)
  : M unit :=
  async_method_call (endpoints_reply bus)
    (fun ec vEndpoints =>
       if failed ec then respond internalError
       else
         match vEndpoints with
         | None => respond internalError
         | Some endpoints =>
             match back endpoints with
             | None => undefined
             | Some resourceIsolatedHwEntry =>
                 async_method_call (message_reply bus)
                   (fun ec get_error =>
                      if negb (failed ec) then respond success
                      else
                        match get_error with
                        | None => respond internalError
                        | Some dbusError =>
                            if name dbusError
                               =? "xyz.openbmc_project.Common.Error.NotAllowed"
                            then respond (propertyNotWritable "Entry")
                            else if name dbusError
                                    =? "xyz.openbmc_project.Common.Error.Unavailable"
                            then respond resourceInStandby
                            else respond internalError
                        end)
                   (mkCall hwIsolationDbusName resourceIsolatedHwEntry
                      "xyz.openbmc_project.Object.Delete" "Delete" [])
             end
         end)
    (mkCall "xyz.openbmc_project.ObjectMapper"
       (resourceObjPath ++ "/isolated_hw_entry")
       "org.freedesktop.DBus.Properties" "Get"
       [ArgString "xyz.openbmc_project.Association"; ArgString "endpoints"]).

(** The loop of [processHardwareIsolationReq] over the subtree paths: the
    first object whose [filename()] is the resource id, and the empty path of
    the default-constructed [resourceObjPath] when there is none. *)
Fixpoint findResourceObjPath (resourceId : string) (objects : list string)
  : string :=
  match objects with
  | [] => ""
  | object :: rest =>
      if filename ext object =? resourceId then object
      else findResourceObjPath resourceId rest
  end.

Definition processHardwareIsolationReq
  (resourceName resourceId : string) (enabled : bool)
  (interfaces : list string) : M unit :=
  let resourceIfaces :=
    (interfaces ++ ["xyz.openbmc_project.Object.Enable"])%list in
  async_method_call (paths_reply bus)
    (fun ec objects =>
       if failed ec then respond internalError
       else
         let resourceObjPath := findResourceObjPath resourceId objects in
         if resourceObjPath =? "" then
           respond (resourceNotFound resourceName resourceId)
         else
           async_method_call (object_reply bus)
             (fun ec objType =>
                if failed ec then respond internalError
                else if Nat.ltb 1 (List.length objType) then
                  respond internalError
                else
                  match nth_error objType 0 with
                  | None => undefined
                  | Some objType0 =>
                      if fst objType0 =? "" then respond internalError
                      else if negb enabled then
                        isolateResource resourceName resourceId
                          resourceObjPath (fst objType0)
                      else deisolateResource resourceObjPath (fst objType0)
                  end)
             (mkCall "xyz.openbmc_project.ObjectMapper"
                "/xyz/openbmc_project/object_mapper"
                "xyz.openbmc_project.ObjectMapper" "GetObject"
                [ArgString "/xyz/openbmc_project/hardware_isolation";
                 ArgStrings ["xyz.openbmc_project.HardwareIsolation.Create"]]))
    (mkCall "xyz.openbmc_project.ObjectMapper"
       "/xyz/openbmc_project/object_mapper"
       "xyz.openbmc_project.ObjectMapper" "GetSubTreePaths"
       [ArgString "/xyz/openbmc_project/inventory"; ArgInt 0;
        ArgStrings resourceIfaces]).

Definition setSeverity (objPath : string) (severityPropPath : list string)
  (severityVal : string) : M bool :=
  if severityVal =? "xyz.openbmc_project.Logging.Event.SeverityLevel.Critical"
  then
    store (assign_pointer severityPropPath (JString "Critical")) ;; ret true
  else if (severityVal
           =? "xyz.openbmc_project.Logging.Event.SeverityLevel.Warning")
          || (severityVal
              =? "xyz.openbmc_project.Logging.Event.SeverityLevel.Unknown")
  then
    store (assign_pointer severityPropPath (JString "Warning")) ;; ret true
  else if severityVal =? "xyz.openbmc_project.Logging.Event.SeverityLevel.Ok"
  then
    store (assign_pointer severityPropPath (JString "OK")) ;; ret true
  else
    respond internalError ;; ret false.

(** Modelled from the spec: [error_log_utils::setErrorLogUri] of
    utils/error_log_utils.hpp, which is not among the sources.  It resolves
    the error-log object into a referenceable URI and attaches it at the given
    property path of the response. *)
Definition setErrorLogUri (errorLogObjPath : string)
  (errorLogPropPath : list string) (isLink : bool) : M unit :=
  store
    (assign_pointer errorLogPropPath (errorLogRef ext errorLogObjPath isLink)).

(** The loop of [getHwIsolationStatus] over the endpoints: the first endpoint
    whose [parent_path().filename()] is "hw_isolation_status" ([found] and
    [hwStatusEventObj]), or none ([found] stays false). *)
Fixpoint findHwStatusEventObj (endpoints : list string) : option string :=
  match endpoints with
  | [] => None
  | endpoint :: rest =>
      if filename ext (parent_path ext endpoint) =? "hw_isolation_status"
      then Some endpoint
      else findHwStatusEventObj rest
  end.

(** The loop that fills the message arguments into the registry message: the
    first occurrence of "%i" is replaced by the i-th argument. *)
Fixpoint fillMessageArgs (i : nat) (messageArgs : list string)
  (message : string) : string :=
  match messageArgs with
  | [] => message
  | messageArg :: rest =>
      let argIndex := "%" ++ to_string (S i) in
      fillMessageArgs (S i) rest
        match index 0 argIndex message with
        | Some argPos =>
            replace argPos (String.length argIndex) messageArg message
        | None => message
        end
  end.

(** [nlohmann::json& condition = conditions.back()], taken when
    [Status.Conditions] has just been made an array of one object. *)
Definition condition : list selector :=
  [Key "Status"; Key "Conditions"; Index 0].

Definition logEntryPropPath : list string :=
  ["Status"; "Conditions"; "0"; "LogEntry"].

Definition severityPropPath : list string :=
  ["Status"; "Conditions"; "0"; "Severity"].

(** The body of the loop over the event properties. *)
Definition fillCondition (hwStatusEventObj : string)
  (property : string * PropertyValue) : M Flow :=
  if fst property =? "Associations" then
    match snd property with
    | VAssociations associations =>
        for_each
          (fun assoc : string * string * string =>
             let '(relation, _, target) := assoc in
             if relation =? "error_log" then
               let errPath := target in
               setErrorLogUri errPath logEntryPropPath true ;; ret Continue
             else ret Continue)
          associations ;;
        ret Continue
    | _ => respond internalError ;; ret Return
    end
  else if fst property =? "Timestamp" then
    match snd property with
    | VUint64 timestamp =>
        store (assign (condition ++ [Key "Timestamp"])
                 (JString (getDateTime ext timestamp))) ;;
        ret Continue
    | _ => respond internalError ;; ret Return
    end
  else if fst property =? "Message" then
    match snd property with
    | VString msgPropVal =>
        match getMessage ext "OpenBMC.0.2.HardwareIsolationReason" with
        | None => respond internalError ;; ret Return
        | Some msgReg =>
            let messageArgs := [msgPropVal] in
            let message := fillMessageArgs 0 messageArgs (message msgReg) in
            store (assign (condition ++ [Key "Message"]) (JString message)) ;;
            store (assign (condition ++ [Key "MessageArgs"])
                     (JArray (map JString messageArgs))) ;;
            store (assign (condition ++ [Key "MessageId"])
                     (JString "OpenBMC.0.2.HardwareIsolationReason")) ;;
            ret Continue
        end
    | _ => respond internalError ;; ret Return
    end
  else if fst property =? "Severity" then
    match snd property with
    | VString severity =>
        ok <- setSeverity hwStatusEventObj severityPropPath severity ;;
        if negb ok then ret Return else ret Continue
    | _ => respond internalError ;; ret Return
    end
  else ret Continue.

(** The handler of the GetAll call on the event object. *)
Definition fillStatus (hwStatusEventObj : string) (ec : error_code)
  (properties : HwStausEventPropertiesType) : M unit :=
  if failed ec then respond internalError
  else
    store (assign [Key "Status"; Key "State"] (JString "Disabled")) ;;
    store (assign [Key "Status"; Key "Conditions"] (JArray [JObject []])) ;;
    for_each (fillCondition hwStatusEventObj) properties.

Definition getHwIsolationStatus (resourceObjPath : string) : M unit :=
  async_method_call (endpoints_reply bus)
    (fun ec vEndpoints =>
       if failed ec then
         if (ec =? EBADR)%Z then ret tt
         else respond internalError
       else
         match vEndpoints with
         | None => respond internalError
         | Some endpoints =>
             match findHwStatusEventObj endpoints with
             | None => ret tt
             | Some hwStatusEventObj =>
                 async_method_call (object_reply bus)
                   (fun ec objType =>
                      if failed ec then respond internalError
                      else if Nat.ltb 1 (List.length objType) then
                        respond internalError
                      else
                        match nth_error objType 0 with
                        | None => undefined
                        | Some objType0 =>
                            if fst objType0 =? "" then respond internalError
                            else
                              async_method_call (properties_reply bus)
                                (fillStatus hwStatusEventObj)
                                (mkCall (fst objType0) hwStatusEventObj
                                   "org.freedesktop.DBus.Properties" "GetAll"
                                   [ArgString ""])
                        end)
                   (mkCall "xyz.openbmc_project.ObjectMapper"
                      "/xyz/openbmc_project/object_mapper"
                      "xyz.openbmc_project.ObjectMapper" "GetObject"
                      [ArgString hwStatusEventObj;
                       ArgStrings ["xyz.openbmc_project.Logging.Event"]])
             end
         end)
    (mkCall "xyz.openbmc_project.ObjectMapper" (resourceObjPath ++ "/event_log")
       "org.freedesktop.DBus.Properties" "Get"
       [ArgString "xyz.openbmc_project.Association"; ArgString "endpoints"]).

End hw_isolation_utils.

(** ** Fixtures: a bus with scripted replies and simple library functions *)

Module Fixture.

(** A bus that gives the same scripted reply to every call of a kind. *)
Definition scripted
  (paths : error_code * list string)
  (object : error_code * GetObjectType)
  (endpoints : error_code * option (list string))
  (msg : error_code * option sd_bus_error)
  (properties : error_code * HwStausEventPropertiesType) : Bus :=
  {| paths_reply := fun _ _ => paths;
     object_reply := fun _ _ => object;
     endpoints_reply := fun _ _ => endpoints;
     message_reply := fun _ _ => msg;
     properties_reply := fun _ _ => properties |}.

(** The position of the last '/' of a path. *)
Fixpoint rfind_slash (s : string) : option nat :=
  match s with
  | EmptyString => None
  | String c rest =>
      match rfind_slash rest with
      | Some n => Some (S n)
      | None => if Ascii.eqb c "/" then Some 0 else None
      end
  end.

Definition last_segment (s : string) : string :=
  match rfind_slash s with
  | Some n => substring (S n) (String.length s - S n) s
  | None => ""
  end.

Definition without_last_segment (s : string) : string :=
  match rfind_slash s with
  | Some n => substring 0 n s
  | None => s
  end.

Definition ext : Extern :=
  {| filename := last_segment;
     parent_path := without_last_segment;
     getDateTime := fun _ => "1970-01-01T00:00:00+00:00";
     getMessage := fun id =>
       if id =? "OpenBMC.0.2.HardwareIsolationReason"
       then Some {| message := "Reason: %1 detected" |}
       else None;
     errorLogRef := fun p _ =>
       JString ("/redfish/v1/Systems/system/LogServices/EventLog/Entries/"
                ++ last_segment p) |}.

Definition st0 : State := mkState JNull [].

(** A response whose status has one empty condition object. *)
Definition one_empty_condition : json :=
  JObject [("Status", JObject [("Conditions", JArray [JObject []])])].

Definition dbus_error (n : string) : option sd_bus_error :=
  Some {| name := n; errmsg := "" |}.

(** The Create call fails with the InvalidArgument error. *)
Definition bus_invalid_argument : Bus :=
  scripted (0%Z, []) (0%Z, []) (0%Z, None)
    (5%Z, dbus_error "xyz.openbmc_project.Common.Error.InvalidArgument")
    (0%Z, []).

(** The resource is in the inventory and GetObject succeeds with no owner. *)
Definition bus_no_owner : Bus :=
  scripted (0%Z, ["/xyz/openbmc_project/inventory/system/cpu0"]) (0%Z, [])
    (0%Z, Some ["/xyz/openbmc_project/logging/hw_isolation_status/1"])
    (0%Z, None) (0%Z, []).

(** The associations [/e/1; /e/2] and a Delete that succeeds. *)
Definition bus_two_entries : Bus :=
  scripted (0%Z, []) (0%Z, []) (0%Z, Some ["/e/1"; "/e/2"]) (0%Z, None)
    (0%Z, []).

(** The association read succeeds with an empty endpoint list. *)
Definition bus_no_entries : Bus :=
  scripted (0%Z, []) (0%Z, []) (0%Z, Some []) (0%Z, None) (0%Z, []).

(** The properties of a status event. *)
Definition event_properties : HwStausEventPropertiesType :=
  [("Associations",
    VAssociations
      [("error_log", "event_log", "/xyz/openbmc_project/logging/entry/1");
       ("isolated_hw", "isolated_hw_entry",
        "/xyz/openbmc_project/inventory/system/cpu0");
       ("error_log", "event_log", "/xyz/openbmc_project/logging/entry/2")]);
   ("Message", VString "overheat");
   ("Severity",
    VString "xyz.openbmc_project.Logging.Event.SeverityLevel.Unknown");
   ("Timestamp", VUint64 1635500000)].

(** The resource has a status event owned by one service. *)
Definition bus_status_event : Bus :=
  scripted (0%Z, [])
    (0%Z, [("xyz.openbmc_project.Logging",
            ["xyz.openbmc_project.Logging.Event"])])
    (0%Z, Some ["/xyz/openbmc_project/logging/entry/7";
                "/xyz/openbmc_project/logging/hw_isolation_status/1"])
    (0%Z, None) (0%Z, event_properties).

(** The inventory has cpu0 and cpu1 only. *)
Definition bus_inventory : Bus :=
  scripted
    (0%Z, ["/xyz/openbmc_project/inventory/system/cpu0";
           "/xyz/openbmc_project/inventory/system/cpu1"])
    (0%Z, [("xyz.svc.A", [])]) (0%Z, Some []) (0%Z, None) (0%Z, []).

(** The Create call is refused: the resource is isolated already. *)
Definition bus_isolated_already : Bus :=
  scripted (0%Z, ["/xyz/openbmc_project/inventory/system/cpu0"])
    (0%Z, [("xyz.svc.A", [])]) (0%Z, Some ["/e/1"; "/e/2"])
    (5%Z,
     dbus_error "xyz.openbmc_project.HardwareIsolation.Error.IsolatedAlready")
    (0%Z, []).

(** The Delete call is refused: not allowed. *)
Definition bus_delete_not_allowed : Bus :=
  scripted (0%Z, ["/xyz/openbmc_project/inventory/system/cpu0"])
    (0%Z, [("xyz.svc.A", [])]) (0%Z, Some ["/e/1"; "/e/2"])
    (1%Z, dbus_error "xyz.openbmc_project.Common.Error.NotAllowed")
    (0%Z, []).

(** Every query fails with EIO. *)
Definition bus_down : Bus :=
  scripted (5%Z, []) (5%Z, []) (5%Z, None) (5%Z, None) (5%Z, []).

(** The inventory answers, the owner query fails. *)
Definition bus_owner_query_fails : Bus :=
  scripted (0%Z, ["/xyz/openbmc_project/inventory/system/cpu0"]) (5%Z, [])
    (0%Z, Some ["/xyz/openbmc_project/logging/hw_isolation_status/1"])
    (0%Z, None) (0%Z, []).

(** Two services own the interface. *)
Definition bus_two_owners : Bus :=
  scripted (0%Z, ["/xyz/openbmc_project/inventory/system/cpu0"])
    (0%Z, [("xyz.svc.A", []); ("xyz.svc.B", [])])
    (0%Z, Some ["/xyz/openbmc_project/logging/hw_isolation_status/1"])
    (0%Z, None) (0%Z, []).

(** The resource has error logs only, no status event. *)
Definition bus_no_status_event : Bus :=
  scripted (0%Z, []) (0%Z, [])
    (0%Z, Some ["/xyz/openbmc_project/logging/entry/7";
                "/xyz/openbmc_project/logging/entry/9"])
    (0%Z, None) (0%Z, []).

(** The status event is found and owned, its properties cannot be read. *)
Definition bus_properties_fail : Bus :=
  scripted (0%Z, [])
    (0%Z, [("xyz.openbmc_project.Logging", [])])
    (0%Z, Some ["/xyz/openbmc_project/logging/hw_isolation_status/1"])
    (0%Z, None) (5%Z, []).


(** The status event has a message and a severity of another enumeration. *)
Definition bus_bad_severity : Bus :=
  scripted (0%Z, [])
    (0%Z, [("xyz.openbmc_project.Logging", [])])
    (0%Z, Some ["/xyz/openbmc_project/logging/hw_isolation_status/1"])
    (0%Z, None)
    (0%Z,
     [("Message", VString "overheat");
      ("Severity",
       VString "xyz.openbmc_project.Logging.Entry.Level.Critical")]).

End Fixture.

(** The calls of the utilities, by name. *)
Definition createCall (resourceObjPath hwIsolationDbusName : string) : Call :=
  mkCall hwIsolationDbusName "/xyz/openbmc_project/hardware_isolation"
    "xyz.openbmc_project.HardwareIsolation.Create" "Create"
    [ArgPath resourceObjPath;
     ArgString "xyz.openbmc_project.HardwareIsolation.Entry.Type.Manual"].

Definition endpointsCall (associationPath : string) : Call :=
  mkCall "xyz.openbmc_project.ObjectMapper" associationPath
    "org.freedesktop.DBus.Properties" "Get"
    [ArgString "xyz.openbmc_project.Association"; ArgString "endpoints"].

Definition deleteCall (hwIsolationDbusName entry : string) : Call :=
  mkCall hwIsolationDbusName entry "xyz.openbmc_project.Object.Delete"
    "Delete" [].

Definition subTreePathsCall (interfaces : list string) : Call :=
  mkCall "xyz.openbmc_project.ObjectMapper"
    "/xyz/openbmc_project/object_mapper"
    "xyz.openbmc_project.ObjectMapper" "GetSubTreePaths"
    [ArgString "/xyz/openbmc_project/inventory"; ArgInt 0;
     ArgStrings (interfaces ++ ["xyz.openbmc_project.Object.Enable"])%list].

Definition getObjectCall (path interface : string) : Call :=
  mkCall "xyz.openbmc_project.ObjectMapper"
    "/xyz/openbmc_project/object_mapper"
    "xyz.openbmc_project.ObjectMapper" "GetObject"
    [ArgString path; ArgStrings [interface]].

Definition hwIsolationOwnerCall : Call :=
  getObjectCall "/xyz/openbmc_project/hardware_isolation"
    "xyz.openbmc_project.HardwareIsolation.Create".

Definition eventOwnerCall (hwStatusEventObj : string) : Call :=
  getObjectCall hwStatusEventObj "xyz.openbmc_project.Logging.Event".

Definition getAllCall (owner object : string) : Call :=
  mkCall owner object "org.freedesktop.DBus.Properties" "GetAll"
    [ArgString ""].

(** The suffix test of a string, for claims worded by the ending of a name. *)
Fixpoint ends_in (suffix s : string) : bool :=
  (s =? suffix)
  || match s with
     | EmptyString => false
     | String _ rest => ends_in suffix rest
     end.

(** A string with a '%' character. *)
Fixpoint has_percent (s : string) : bool :=
  match s with
  | EmptyString => false
  | String c rest => Ascii.eqb c "%" || has_percent rest
  end.

(** A JSON value in which [j["Status"][k]] can be assigned: the value and its
    Status member are null or objects. *)
Definition status_assignable (j : json) : bool :=
  match child (Key "Status") j with
  | Some JNull | Some (JObject _) => true
  | _ => false
  end.

(** [Status.Conditions] of a response. *)
Definition conditions (j : json) : option json :=
  lookup [Key "Status"; Key "Conditions"] j.

(** A member of the condition object, read through its reference. *)
Definition condition_member (k : string) (j : json) : option json :=
  lookup (condition ++ [Key k]) j.

(** [Status.Conditions] is an array of exactly one object. *)
Definition one_condition (j : json) : Prop :=
  exists c, conditions j = Some (JArray [JObject c]).

(** A call that put no call on the bus wrote at most one outcome. *)
Definition ends_quietly_or_with_one {A : Type} (st : State) (e : Exec A)
  : Prop :=
  trace (final e) = trace st
  \/ exists o, trace (final e) = (trace st ++ [Wrote o])%list.

(** A loop body that goes on to the next iteration has left no event; one
    that ends the handler has written at most one outcome. *)
Definition continues_or_ends (st : State) (e : Exec Flow) : Prop :=
  match e with
  | Returned Continue st' => trace st' = trace st
  | _ => ends_quietly_or_with_one st e
  end.

(** A call chain wrote at most one outcome, and wrote it last: its events are
    calls on the bus, followed by at most one message to the response. *)
Definition writes_at_most_one {A : Type} (st : State) (e : Exec A) : Prop :=
  exists cs,
    trace (final e) = (trace st ++ map Called cs)%list
    \/ exists o,
         trace (final e) = (trace st ++ map Called cs ++ [Wrote o])%list.

(** The test of the endpoint loop of [getHwIsolationStatus]: the parent of
    the endpoint is named hw_isolation_status. *)
Definition is_status_event (ext : Extern) (endpoint : string) : bool :=
  filename ext (parent_path ext endpoint) =? "hw_isolation_status".

(** [Status.State] of a response. *)
Definition status_state (j : json) : option json :=
  lookup [Key "Status"; Key "State"] j.

(** The property names the status render reads. *)
Definition known_key (k : string) : bool :=
  (k =? "Associations") || (k =? "Timestamp") || (k =? "Message")
  || (k =? "Severity").


(** The outcomes [isolateResource] can write for a resource. *)
Definition isolate_outcomes (resourceName resourceId : string)
  : list Outcome :=
  [success; internalError; propertyValueIncorrect "@odata.id" "0";
   propertyNotWritable "Enabled"; resourceInStandby;
   resourceAlreadyExists "@odata.id" resourceName resourceId;
   createLimitReachedForResource].

(** A call that put no call on the bus wrote nothing, or internalError
    alone. *)
Definition ends_silently_or_internal {A : Type} (st : State) (e : Exec A)
  : Prop :=
  trace (final e) = trace st
  \/ trace (final e) = (trace st ++ [Wrote internalError])%list.

(** A loop body that goes on has left no event; one that ends the handler
    has written nothing, or internalError alone. *)
Definition continues_or_fails (st : State) (e : Exec Flow) : Prop :=
  match e with
  | Returned Continue st' => trace st' = trace st
  | _ => ends_silently_or_internal st e
  end.

(** The forms a status render can take: it ends after the read of the
    endpoints, after the owner query, or in the properties handler. *)
Inductive StatusRun (ext : Extern) (path : string) (st : State)
  : Exec unit -> Prop :=
| status_no_event :
    StatusRun ext path st
      (Returned tt (log_call (endpointsCall (path ++ "/event_log")) st))
| status_read_failed :
    StatusRun ext path st
      (Returned tt
         (write internalError
            (log_call (endpointsCall (path ++ "/event_log")) st)))
| status_owner_failed event :
    StatusRun ext path st
      (Returned tt
         (write internalError
            (log_call (eventOwnerCall event)
               (log_call (endpointsCall (path ++ "/event_log")) st))))
| status_no_owner event :
    StatusRun ext path st
      (Undefined
         (log_call (eventOwnerCall event)
            (log_call (endpointsCall (path ++ "/event_log")) st)))
| status_properties event owner ec properties :
    StatusRun ext path st
      (fillStatus ext event ec properties
         (log_call (getAllCall owner event)
            (log_call (eventOwnerCall event)
               (log_call (endpointsCall (path ++ "/event_log")) st)))).

(** A response that shows a status event: the state is Disabled and there is
    one condition object. *)
Definition rendered (j : json) : Prop :=
  status_state j = Some (JString "Disabled") /\ one_condition j.

(** * Properties *)

(** Case analysis on every test of a chain of conditionals. *)
Ltac split_ifs :=
  repeat match goal with
         | |- context [if ?b then _ else _] => destruct b
         end.

Lemma calls_of_app t1 t2 :
  calls_of (t1 ++ t2) = (calls_of t1 ++ calls_of t2)%list.
Proof.
  induction t1 as [| [c | o] t1 IH]; cbn; [| rewrite IH |]; auto.
Qed.

Lemma written_of_app t1 t2 :
  written_of (t1 ++ t2) = (written_of t1 ++ written_of t2)%list.
Proof.
  induction t1 as [| [c | o] t1 IH]; cbn; [| | rewrite IH]; auto.
Qed.

Lemma calls_log_call c st : calls (log_call c st) = (calls st ++ [c])%list.
Proof. unfold calls, log_call. cbn. apply calls_of_app. Qed.

Lemma calls_write o st : calls (write o st) = calls st.
Proof.
  unfold calls, write. cbn. rewrite calls_of_app. apply app_nil_r.
Qed.

Lemma written_write o st : written (write o st) = (written st ++ [o])%list.
Proof. unfold written, write. cbn. apply written_of_app. Qed.

Lemma written_log_call c st : written (log_call c st) = written st.
Proof.
  unfold written, log_call. cbn. rewrite written_of_app. apply app_nil_r.
Qed.

Lemma bind_Returned {A B : Type} (m : M A) (k : A -> M B) st a st' :
  m st = Returned a st' -> bind m k st = k a st'.
Proof.
  intros H. unfold bind. rewrite H. reflexivity.
Qed.

(** ** Isolate *)

Lemma failed_true (ec : error_code) : ec <> 0%Z -> failed ec = true.
Proof.
  intros H. unfold failed. destruct (Z.eqb_spec ec 0); [contradiction | reflexivity].
Qed.

Lemma failed_false : failed 0%Z = false.
Proof. reflexivity. Qed.

(** A Create call that succeeds writes the success outcome. *)
Lemma isolateResource_success bus rn rid path svc st err :
  message_reply bus (calls st) (createCall path svc) = (0%Z, err) ->
  isolateResource bus rn rid path svc st
  = Returned tt (write success (log_call (createCall path svc) st)).
Proof.
  intros H. unfold isolateResource, async_method_call.
  fold (createCall path svc). rewrite H. reflexivity.
Qed.

(** The rows of the error table that the code follows: the error names are
    compared in full. *)
Lemma isolateResource_error_rows bus rn rid path svc st ec n m :
  message_reply bus (calls st) (createCall path svc)
  = (ec, Some {| name := n; errmsg := m |}) ->
  ec <> 0%Z ->
  let run o :=
    isolateResource bus rn rid path svc st
    = Returned tt (write o (log_call (createCall path svc) st)) in
  (n = "xyz.openbmc_project.Common.Error.NotAllowed" ->
   run (propertyNotWritable "Enabled"))
  /\ (n = "xyz.openbmc_project.Common.Error.Unavailable" ->
      run resourceInStandby)
  /\ (n = "xyz.openbmc_project.HardwareIsolation.Error.IsolatedAlready" ->
      run (resourceAlreadyExists "@odata.id" rn rid))
  /\ (n = "xyz.openbmc_project.Common.Error.TooManyResources" ->
      run createLimitReachedForResource)
  /\ (n <> "xyz.openbmc_project.Common.Error.InvalidArgument" ->
      n <> "xyz.openbmc_project.Common.Error.NotAllowed" ->
      n <> "xyz.openbmc_project.Common.Error.Unavailable" ->
      n <> "xyz.openbmc_project.HardwareIsolation.Error.IsolatedAlready" ->
      n <> "xyz.openbmc_project.Common.Error.TooManyResources" ->
      run internalError).
Proof.
  intros H Hec run. subst run. unfold isolateResource, async_method_call.
  fold (createCall path svc). rewrite H, (failed_true ec Hec). cbn [negb name].
  repeat split.
  - intros ->. reflexivity.
  - intros ->. reflexivity.
  - intros ->. reflexivity.
  - intros ->. reflexivity.
  - intros H1 H2 H3 H4 H5.
    repeat match goal with
           | Hn : n <> ?s |- context [String.eqb n ?s] =>
               destruct (String.eqb_spec n s); [contradiction |]
           end.
    reflexivity.
Qed.

(** A failed Create call without an error name is an internal error. *)
Lemma isolateResource_no_error_name bus rn rid path svc st ec :
  message_reply bus (calls st) (createCall path svc) = (ec, None) ->
  ec <> 0%Z ->
  isolateResource bus rn rid path svc st
  = Returned tt (write internalError (log_call (createCall path svc) st)).
Proof.
  intros H Hec. unfold isolateResource, async_method_call.
  fold (createCall path svc). rewrite H, (failed_true ec Hec). reflexivity.
Qed.

(** C1 (isolate error table, InvalidArgument row): on the InvalidArgument
    error the value argument of propertyValueIncorrect is
    [std::to_string(false)], which is "0"; the table of the claim has "false"
    there.  Scenario: Processor cpu0 at /inventory/system/cpu0, owner
    xyz.svc.A. *)
Theorem isolateResource_InvalidArgument_value :
  let st' :=
    final (isolateResource Fixture.bus_invalid_argument "Processor" "cpu0"
             "/inventory/system/cpu0" "xyz.svc.A" Fixture.st0) in
  written st' = [propertyValueIncorrect "@odata.id" "0"]
  /\ written st' <> [propertyValueIncorrect "@odata.id" "false"].
Proof.
  cbv zeta. split; [reflexivity | discriminate].
Qed.

(** ** Owning-service lookup *)

(** Two or more owners, or one owner with an empty name, are an internal
    error of the isolation request. *)
Lemma processHardwareIsolationReq_owner_rejected
  ext bus rn rid enabled ifaces st objects objType :
  paths_reply bus (calls st) (subTreePathsCall ifaces) = (0%Z, objects) ->
  findResourceObjPath ext rid objects <> "" ->
  object_reply bus (calls (log_call (subTreePathsCall ifaces) st))
    hwIsolationOwnerCall = (0%Z, objType) ->
  (2 <= List.length objType \/ exists ifs, objType = [("", ifs)]) ->
  processHardwareIsolationReq ext bus rn rid enabled ifaces st
  = Returned tt
      (write internalError
         (log_call hwIsolationOwnerCall
            (log_call (subTreePathsCall ifaces) st))).
Proof.
  intros Hp Hf Ho Hn.
  unfold hwIsolationOwnerCall, getObjectCall, subTreePathsCall in *.
  unfold processHardwareIsolationReq, async_method_call.
  rewrite Hp. cbn [failed Z.eqb negb].
  destruct (String.eqb_spec (findResourceObjPath ext rid objects) "");
    [contradiction |].
  rewrite Ho. cbn [failed Z.eqb negb].
  destruct Hn as [Hn | [ifs ->]].
  - destruct (Nat.ltb_spec 1 (List.length objType)); [reflexivity | lia].
  - reflexivity.
Qed.

(** The same for the owner of the status event. *)
Lemma getHwIsolationStatus_owner_rejected
  ext bus path st endpoints event objType :
  endpoints_reply bus (calls st) (endpointsCall (path ++ "/event_log"))
  = (0%Z, Some endpoints) ->
  findHwStatusEventObj ext endpoints = Some event ->
  object_reply bus
    (calls (log_call (endpointsCall (path ++ "/event_log")) st))
    (eventOwnerCall event) = (0%Z, objType) ->
  (2 <= List.length objType \/ exists ifs, objType = [("", ifs)]) ->
  getHwIsolationStatus ext bus path st
  = Returned tt
      (write internalError
         (log_call (eventOwnerCall event)
            (log_call (endpointsCall (path ++ "/event_log")) st))).
Proof.
  intros Hp Hf Ho Hn.
  unfold eventOwnerCall, getObjectCall, endpointsCall in *.
  unfold getHwIsolationStatus, async_method_call.
  rewrite Hp. cbn [failed Z.eqb negb]. rewrite Hf.
  rewrite Ho. cbn [failed Z.eqb negb].
  destruct Hn as [Hn | [ifs ->]].
  - destruct (Nat.ltb_spec 1 (List.length objType)); [reflexivity | lia].
  - reflexivity.
Qed.

(** C2 (owning-service lookup, empty result): when GetObject succeeds with an
    empty result, both lookups read [objType[0]] of the empty vector: the
    behaviour is undefined and no internalError has been written.  Scenario:
    cpu0 is in the inventory, and has a status event, and the mapper answers
    GetObject with no owner. *)
Theorem owner_lookup_empty_result_undefined :
  match
    processHardwareIsolationReq Fixture.ext Fixture.bus_no_owner
      "Processor" "cpu0" false ["xyz.openbmc_project.Inventory.Item.Cpu"]
      Fixture.st0
  with
  | Undefined st =>
      written st = []
      /\ calls st
         = [subTreePathsCall ["xyz.openbmc_project.Inventory.Item.Cpu"];
            hwIsolationOwnerCall]
  | _ => False
  end
  /\ match
       getHwIsolationStatus Fixture.ext Fixture.bus_no_owner
         "/xyz/openbmc_project/inventory/system/cpu0" Fixture.st0
     with
     | Undefined st =>
         written st = []
         /\ calls st
            = [endpointsCall
                 "/xyz/openbmc_project/inventory/system/cpu0/event_log";
               eventOwnerCall
                 "/xyz/openbmc_project/logging/hw_isolation_status/1"]
     | _ => False
     end.
Proof.
  split; vm_compute; split; reflexivity.
Qed.

(** ** De-isolate *)

Lemma back_last {A : Type} (l : list A) (d : A) :
  l <> [] -> back l = Some (last l d).
Proof.
  induction l as [| x l IH]; [congruence |].
  intros _. destruct l as [| y l]; [reflexivity |].
  change (back (x :: y :: l)) with (back (y :: l)).
  change (last (x :: y :: l) d) with (last (y :: l) d).
  apply IH. discriminate.
Qed.

Lemma back_nil {A : Type} (l : list A) : back l = None -> l = [].
Proof.
  induction l as [| x l IH]; [reflexivity |].
  destruct l as [| y l]; [discriminate |].
  intros H. apply IH in H. discriminate.
Qed.

(** C3 (de-isolation targets the last endpoint): when the association read
    succeeds with a non-empty endpoint list, the calls of the de-isolation are
    exactly the association read followed by one Delete on the last endpoint
    of the list, and a Delete that succeeds writes the success outcome. *)
Theorem deisolateResource_deletes_last_endpoint
  bus path svc st endpoints :
  endpoints_reply bus (calls st) (endpointsCall (path ++ "/isolated_hw_entry"))
  = (0%Z, Some endpoints) ->
  endpoints <> [] ->
  exists st',
    deisolateResource bus path svc st = Returned tt st'
    /\ calls st'
       = (calls st
            ++ [endpointsCall (path ++ "/isolated_hw_entry");
                deleteCall svc (last endpoints "")])%list
    /\ (forall c,
           In c (calls st') -> ~ In c (calls st) -> method c = "Delete" ->
           objpath c = last endpoints "")
    /\ (fst (message_reply bus
               (calls (log_call (endpointsCall (path ++ "/isolated_hw_entry"))
                         st))
               (deleteCall svc (last endpoints ""))) = 0%Z ->
        written st' = (written st ++ [success])%list).
Proof.
  intros Hr Hne.
  unfold deisolateResource, async_method_call.
  fold (endpointsCall (path ++ "/isolated_hw_entry")). rewrite Hr.
  cbn [failed Z.eqb negb]. rewrite (back_last endpoints "" Hne).
  fold (deleteCall svc (last endpoints "")).
  destruct (message_reply bus _ (deleteCall svc (last endpoints "")))
    as [ec err] eqn:Hd.
  assert (Hcalls :
    forall o,
      calls (write o (log_call (deleteCall svc (last endpoints ""))
                        (log_call (endpointsCall (path ++ "/isolated_hw_entry"))
                           st)))
      = (calls st ++ [endpointsCall (path ++ "/isolated_hw_entry");
                      deleteCall svc (last endpoints "")])%list).
  { intros o. rewrite calls_write, !calls_log_call, <- app_assoc.
    reflexivity. }
  assert (Htarget :
    forall c,
      In c (calls st ++ [endpointsCall (path ++ "/isolated_hw_entry");
                         deleteCall svc (last endpoints "")])%list ->
      ~ In c (calls st) -> method c = "Delete" ->
      objpath c = last endpoints "").
  { intros c Hin Hnew Hm. apply in_app_or in Hin.
    destruct Hin as [Hin | [<- | [<- | []]]];
      [contradiction | discriminate Hm | reflexivity]. }
  destruct (failed ec) eqn:Hf; cbn [negb].
  - assert (Hec : ec <> 0%Z) by (intros ->; discriminate Hf).
    destruct err as [e |];
      [destruct (name e =? "xyz.openbmc_project.Common.Error.NotAllowed");
       [| destruct (name e =? "xyz.openbmc_project.Common.Error.Unavailable")] |];
      (eexists; split; [reflexivity |];
       split; [apply Hcalls |];
       split; [rewrite Hcalls; exact Htarget |];
       cbn [fst]; intros; contradiction).
  - eexists; split; [reflexivity |].
    split; [apply Hcalls |].
    split; [rewrite Hcalls; exact Htarget |].
    intros _. rewrite written_write, !written_log_call. reflexivity.
Qed.

(** The scenario of the claim: associations [/e/1; /e/2], Delete succeeds;
    /e/2 is deleted and /e/1 is the target of no call. *)
Lemma deisolateResource_two_entries_witness :
  exists st',
    deisolateResource Fixture.bus_two_entries "/inv/cpu0" "xyz.svc.A"
      Fixture.st0 = Returned tt st'
    /\ calls st'
       = [endpointsCall "/inv/cpu0/isolated_hw_entry";
          deleteCall "xyz.svc.A" "/e/2"]
    /\ ~ In "/e/1" (map objpath (calls st'))
    /\ written st' = [success].
Proof.
  destruct (deisolateResource_deletes_last_endpoint Fixture.bus_two_entries
              "/inv/cpu0" "xyz.svc.A" Fixture.st0 ["/e/1"; "/e/2"] eq_refl)
    as (st' & Hr & Hc & _ & Hw); [discriminate |].
  exists st'. split; [exact Hr |]. split; [exact Hc |]. split.
  - rewrite Hc. cbn. intros [H | [H | []]]; discriminate H.
  - exact (Hw eq_refl).
Defined.

(** A value that is not a list of strings is an internal error, and nothing is
    deleted. *)
Lemma deisolateResource_malformed_endpoints bus path svc st :
  endpoints_reply bus (calls st) (endpointsCall (path ++ "/isolated_hw_entry"))
  = (0%Z, None) ->
  deisolateResource bus path svc st
  = Returned tt
      (write internalError
         (log_call (endpointsCall (path ++ "/isolated_hw_entry")) st)).
Proof.
  intros Hr. unfold deisolateResource, async_method_call.
  fold (endpointsCall (path ++ "/isolated_hw_entry")). rewrite Hr.
  reflexivity.
Qed.

(** C4 (empty endpoint list): when the association read succeeds with an
    empty list, the de-isolation takes [back()] of the empty vector: the
    behaviour is undefined and no internalError has been written. *)
Theorem deisolateResource_empty_endpoints_undefined :
  match
    deisolateResource Fixture.bus_no_entries "/inv/cpu0" "xyz.svc.A"
      Fixture.st0
  with
  | Undefined st =>
      written st = []
      /\ calls st = [endpointsCall "/inv/cpu0/isolated_hw_entry"]
  | _ => False
  end.
Proof.
  vm_compute. split; reflexivity.
Qed.

(** ** Object resolution *)

Lemma findResourceObjPath_absent ext rid objects :
  Forall (fun object => filename ext object <> rid) objects ->
  findResourceObjPath ext rid objects = "".
Proof.
  induction 1 as [| object rest Hne _ IH]; [reflexivity |].
  cbn. destruct (String.eqb_spec (filename ext object) rid);
    [contradiction | exact IH].
Qed.

(** C5 (resource not found): when the subtree query succeeds and no returned
    path has the resource id as its final segment, the request writes
    resourceNotFound with the requested name and id, and the subtree query is
    its only call. *)
Theorem processHardwareIsolationReq_not_found
  ext bus rn rid enabled ifaces st objects :
  paths_reply bus (calls st) (subTreePathsCall ifaces) = (0%Z, objects) ->
  Forall (fun object => filename ext object <> rid) objects ->
  processHardwareIsolationReq ext bus rn rid enabled ifaces st
  = Returned tt
      (mkState (jsonValue st)
         (trace st
            ++ [Called (subTreePathsCall ifaces);
                Wrote (resourceNotFound rn rid)])).
Proof.
  intros Hp Hall.
  unfold processHardwareIsolationReq, async_method_call.
  fold (subTreePathsCall ifaces). rewrite Hp. cbn [failed Z.eqb negb].
  rewrite findResourceObjPath_absent by exact Hall.
  cbn [String.eqb]. unfold respond, write, log_call. cbn [jsonValue trace].
  rewrite <- app_assoc. reflexivity.
Qed.

Lemma processHardwareIsolationReq_not_found_witness :
  processHardwareIsolationReq Fixture.ext Fixture.bus_inventory
    "Processor" "cpu7" false ["xyz.openbmc_project.Inventory.Item.Cpu"]
    Fixture.st0
  = Returned tt
      (mkState JNull
         [Called (subTreePathsCall ["xyz.openbmc_project.Inventory.Item.Cpu"]);
          Wrote (resourceNotFound "Processor" "cpu7")]).
Proof.
  apply (processHardwareIsolationReq_not_found Fixture.ext
           Fixture.bus_inventory "Processor" "cpu7" false
           ["xyz.openbmc_project.Inventory.Item.Cpu"] Fixture.st0
           ["/xyz/openbmc_project/inventory/system/cpu0";
            "/xyz/openbmc_project/inventory/system/cpu1"]).
  - reflexivity.
  - repeat constructor; discriminate.
Defined.

(** ** JSON assignments below [Status.Conditions] *)

Lemma obj_find_put_same k v m : obj_find k (obj_put k v m) = Some v.
Proof.
  induction m as [| [k' v'] m IH]; cbn.
  - rewrite String.eqb_refl. reflexivity.
  - destruct (String.eqb_spec k' k) as [-> | Hne]; cbn.
    + rewrite String.eqb_refl. reflexivity.
    + destruct (String.eqb_spec k' k); [contradiction | exact IH].
Qed.

Lemma obj_find_put_other k k' v m :
  k <> k' -> obj_find k' (obj_put k v m) = obj_find k' m.
Proof.
  intros Hne. induction m as [| [k0 v0] m IH]; cbn.
  - destruct (String.eqb_spec k k'); [contradiction | reflexivity].
  - destruct (String.eqb_spec k0 k) as [-> | Hk]; cbn.
    + destruct (String.eqb_spec k k'); [contradiction | reflexivity].
    + destruct (String.eqb_spec k0 k'); [reflexivity | exact IH].
Qed.

Lemma lookup_app p q j :
  lookup (p ++ q) j
  = match lookup p j with Some x => lookup q x | None => None end.
Proof.
  revert j. induction p as [| [k | i] p IH]; intros j; cbn.
  - reflexivity.
  - destruct j; try reflexivity. destruct (obj_find k members); auto.
  - destruct j; try reflexivity. destruct (nth_error elems i); auto.
Qed.

(** An assignment by json_pointer below a chain of object members that
    exist is the assignment into the value they lead to. *)
Lemma assign_pointer_under_keys ks toks v j x x' :
  lookup (map Key ks) j = Some x ->
  assign_pointer toks v x = Some x' ->
  exists j',
    assign_pointer (ks ++ toks) v j = Some j'
    /\ lookup (map Key ks) j' = Some x'.
Proof.
  revert j. induction ks as [| k ks IH]; intros j Hl Ha.
  - cbn in *. injection Hl as ->. eauto.
  - cbn [map lookup] in Hl. destruct j; try discriminate.
    destruct (obj_find k members) as [c0 |] eqn:Hk; [| discriminate].
    destruct (IH _ Hl Ha) as (c0' & Hc0' & Hl').
    exists (JObject (obj_put k c0' members)). split.
    + cbn [app assign_pointer resolve_token child]. rewrite Hk, Hc0'. reflexivity.
    + cbn [map lookup]. rewrite obj_find_put_same. exact Hl'.
Qed.

(** The same for a chain of [operator[]] applications by key. *)
Lemma assign_under_keys ks q v j x x' :
  lookup (map Key ks) j = Some x ->
  assign q v x = Some x' ->
  exists j',
    assign (map Key ks ++ q) v j = Some j'
    /\ lookup (map Key ks) j' = Some x'.
Proof.
  revert j. induction ks as [| k ks IH]; intros j Hl Ha.
  - cbn in *. injection Hl as ->. eauto.
  - cbn [map lookup] in Hl. destruct j; try discriminate.
    destruct (obj_find k members) as [c0 |] eqn:Hk; [| discriminate].
    destruct (IH _ Hl Ha) as (c0' & Hc0' & Hl').
    exists (JObject (obj_put k c0' members)). split.
    + cbn [map app assign child]. rewrite Hk, Hc0'. reflexivity.
    + cbn [map lookup]. rewrite obj_find_put_same. exact Hl'.
Qed.

Lemma condition_member_of_conditions j c k :
  conditions j = Some (JArray [JObject c]) ->
  condition_member k j = obj_find k c.
Proof.
  unfold conditions, condition_member. intros H.
  change (condition ++ [Key k])%list
    with ([Key "Status"; Key "Conditions"] ++ [Index 0; Key k])%list.
  rewrite lookup_app, H. cbn. destruct (obj_find k c); reflexivity.
Qed.

(** A write through the [condition] reference stores the member in the one
    condition object. *)
Lemma store_condition_member k v c st :
  conditions (jsonValue st) = Some (JArray [JObject c]) ->
  exists j',
    store (assign (condition ++ [Key k]) v) st = Returned tt (set_json j' st)
    /\ conditions j' = Some (JArray [JObject (obj_put k v c)]).
Proof.
  intros H.
  destruct (assign_under_keys ["Status"; "Conditions"] [Index 0; Key k] v
              (jsonValue st) (JArray [JObject c])
              (JArray [JObject (obj_put k v c)]) H) as (j' & Ha & Hl).
  { cbn. destruct (obj_find k c); reflexivity. }
  exists j'. split; [| exact Hl].
  unfold store. cbn in Ha. cbn. rewrite Ha. reflexivity.
Qed.

(** So does a write through a pointer "/Status/Conditions/0/<k>". *)
Lemma store_condition_pointer k v c st :
  conditions (jsonValue st) = Some (JArray [JObject c]) ->
  exists j',
    store (assign_pointer ["Status"; "Conditions"; "0"; k] v) st
    = Returned tt (set_json j' st)
    /\ conditions j' = Some (JArray [JObject (obj_put k v c)]).
Proof.
  intros H.
  destruct (assign_pointer_under_keys ["Status"; "Conditions"] ["0"; k] v
              (jsonValue st) (JArray [JObject c])
              (JArray [JObject (obj_put k v c)]) H) as (j' & Ha & Hl).
  { cbn [assign_pointer].
    change (resolve_token "0" (JArray [JObject c])) with (Some (Index 0)).
    cbn. destruct (obj_find k c); reflexivity. }
  exists j'. split; [| exact Hl].
  unfold store. cbn [app] in Ha. rewrite Ha. reflexivity.
Qed.

(** ** Severity *)

(** C6, as worded by the ending of the value: a severity of another
    enumeration that ends in Critical is not mapped; the helper writes
    internalError and returns false. *)
Lemma setSeverity_ending_counterexample :
  let severityVal := "xyz.openbmc_project.Logging.Entry.Level.Critical" in
  let st := mkState Fixture.one_empty_condition [] in
  ends_in "Critical" severityVal = true
  /\ setSeverity "/xyz/openbmc_project/logging/hw_isolation_status/1"
       severityPropPath severityVal st
     = Returned false (write internalError st)
  /\ condition_member "Severity" (jsonValue (write internalError st)) = None.
Proof.
  cbv zeta. repeat split.
Qed.

(** C6 (severity table, by the full names): a severity equal to
    ...Logging.Event.SeverityLevel.Critical sets the condition severity to
    "Critical"; ...SeverityLevel.Warning and ...SeverityLevel.Unknown set it
    to "Warning"; ...SeverityLevel.Ok sets it to "OK"; in each case the helper
    returns true and writes no outcome.  Any other value writes internalError,
    leaves the JSON as it was and returns false. *)
Theorem setSeverity_table objPath severityVal st c :
  conditions (jsonValue st) = Some (JArray [JObject c]) ->
  let sets v :=
    exists st',
      setSeverity objPath severityPropPath severityVal st = Returned true st'
      /\ condition_member "Severity" (jsonValue st') = Some (JString v)
      /\ written st' = written st in
  (severityVal = "xyz.openbmc_project.Logging.Event.SeverityLevel.Critical" ->
   sets "Critical")
  /\ (severityVal = "xyz.openbmc_project.Logging.Event.SeverityLevel.Warning"
      \/ severityVal
         = "xyz.openbmc_project.Logging.Event.SeverityLevel.Unknown" ->
      sets "Warning")
  /\ (severityVal = "xyz.openbmc_project.Logging.Event.SeverityLevel.Ok" ->
      sets "OK")
  /\ (severityVal
      <> "xyz.openbmc_project.Logging.Event.SeverityLevel.Critical" ->
      severityVal
      <> "xyz.openbmc_project.Logging.Event.SeverityLevel.Warning" ->
      severityVal
      <> "xyz.openbmc_project.Logging.Event.SeverityLevel.Unknown" ->
      severityVal <> "xyz.openbmc_project.Logging.Event.SeverityLevel.Ok" ->
      setSeverity objPath severityPropPath severityVal st
      = Returned false (write internalError st)).
Proof.
  intros Hc sets.
  assert (Hset : forall v,
    exists st',
      (store (assign_pointer severityPropPath (JString v)) ;; ret true) st
      = Returned true st'
      /\ condition_member "Severity" (jsonValue st') = Some (JString v)
      /\ written st' = written st).
  { intros v.
    destruct (store_condition_pointer "Severity" (JString v) c st Hc)
      as (j' & Hs & Hj').
    exists (set_json j' st). unfold bind, severityPropPath. rewrite Hs.
    repeat split.
    cbn [jsonValue set_json].
    rewrite (condition_member_of_conditions j' _ "Severity" Hj').
    apply obj_find_put_same. }
  subst sets. unfold setSeverity. repeat split.
  - intros ->. apply Hset.
  - intros [-> | ->]; apply Hset.
  - intros ->. apply Hset.
  - intros H1 H2 H3 H4.
    repeat match goal with
           | Hn : severityVal <> ?s |- context [String.eqb severityVal ?s] =>
               destruct (String.eqb_spec severityVal s); [contradiction |]
           end.
    reflexivity.
Qed.

(** A status event of severity Unknown renders as "Warning". *)
Lemma setSeverity_table_witness :
  let st := mkState Fixture.one_empty_condition [] in
  exists st',
    setSeverity "/xyz/openbmc_project/logging/hw_isolation_status/1"
      severityPropPath
      "xyz.openbmc_project.Logging.Event.SeverityLevel.Unknown" st
    = Returned true st'
    /\ condition_member "Severity" (jsonValue st') = Some (JString "Warning")
    /\ written st' = written st.
Proof.
  cbv zeta.
  destruct (setSeverity_table
              "/xyz/openbmc_project/logging/hw_isolation_status/1"
              "xyz.openbmc_project.Logging.Event.SeverityLevel.Unknown"
              (mkState Fixture.one_empty_condition []) [] eq_refl)
    as (_ & Hw & _).
  apply Hw. right. reflexivity.
Defined.

(** ** Status: the event_log association *)

(** C7 (no status event): when the read of the event_log endpoints fails
    with EBADR, the status render returns with the JSON and the written
    outcomes as they were; when it fails with any other code, it writes
    internalError (and leaves the JSON as it was).  In both cases the read is
    the only call. *)
Theorem getHwIsolationStatus_endpoints_read_failed ext bus path st ec v :
  endpoints_reply bus (calls st) (endpointsCall (path ++ "/event_log"))
  = (ec, v) ->
  ec <> 0%Z ->
  (ec = EBADR ->
   getHwIsolationStatus ext bus path st
   = Returned tt
       (mkState (jsonValue st)
          (trace st ++ [Called (endpointsCall (path ++ "/event_log"))])))
  /\ (ec <> EBADR ->
      getHwIsolationStatus ext bus path st
      = Returned tt
          (mkState (jsonValue st)
             (trace st
                ++ [Called (endpointsCall (path ++ "/event_log"));
                    Wrote internalError]))).
Proof.
  intros Hr Hec. unfold endpointsCall in *.
  unfold getHwIsolationStatus, async_method_call.
  rewrite Hr, (failed_true ec Hec). split; intros He.
  - subst ec. reflexivity.
  - destruct (Z.eqb_spec ec EBADR); [contradiction |].
    unfold respond, write, log_call. cbn [jsonValue trace].
    rewrite <- app_assoc. reflexivity.
Qed.

Lemma getHwIsolationStatus_endpoints_read_failed_witness :
  let bad := Fixture.scripted (0%Z, []) (0%Z, []) (EBADR, None) (0%Z, None)
               (0%Z, []) in
  let down := Fixture.scripted (0%Z, []) (0%Z, []) (113%Z, None) (0%Z, None)
                (0%Z, []) in
  let st := mkState Fixture.one_empty_condition [] in
  getHwIsolationStatus Fixture.ext bad "/inv/cpu0" st
  = Returned tt
      (mkState Fixture.one_empty_condition
         [Called (endpointsCall "/inv/cpu0/event_log")])
  /\ getHwIsolationStatus Fixture.ext down "/inv/cpu0" st
     = Returned tt
         (mkState Fixture.one_empty_condition
            [Called (endpointsCall "/inv/cpu0/event_log");
             Wrote internalError]).
Proof.
  cbv zeta. split.
  - apply (getHwIsolationStatus_endpoints_read_failed Fixture.ext
             (Fixture.scripted (0%Z, []) (0%Z, []) (EBADR, None) (0%Z, None)
                (0%Z, []))
             "/inv/cpu0" (mkState Fixture.one_empty_condition [])
             EBADR None eq_refl);
      [discriminate | reflexivity].
  - apply (getHwIsolationStatus_endpoints_read_failed Fixture.ext
             (Fixture.scripted (0%Z, []) (0%Z, []) (113%Z, None) (0%Z, None)
                (0%Z, []))
             "/inv/cpu0" (mkState Fixture.one_empty_condition [])
             113%Z None eq_refl);
      discriminate.
Defined.

(** ** Status: the reason message *)

Lemma index_first_placeholder pre post :
  has_percent pre = false ->
  index 0 "%1" (pre ++ "%1" ++ post) = Some (String.length pre).
Proof.
  induction pre as [| a pre IH]; intros Hp.
  - change ("" ++ "%1" ++ post) with (String "%" (String "1" post)).
    cbn [index].
    assert (Hpre : prefix "%1" (String "%" (String "1" post)) = true)
      by (apply prefix_correct; destruct post; reflexivity).
    rewrite Hpre. reflexivity.
  - cbn in Hp. apply orb_false_elim in Hp. destruct Hp as [Ha Hp].
    change (String a pre ++ "%1" ++ post)
      with (String a (pre ++ "%1" ++ post)).
    cbn [index String.length].
    assert (Hpre : prefix "%1" (String a (pre ++ "%1" ++ post)) = false).
    { apply not_true_is_false. intros Ht.
      apply prefix_correct in Ht. cbn in Ht. injection Ht as Ht _.
      subst a. discriminate Ha. }
    rewrite Hpre, (IH Hp). reflexivity.
Qed.

Lemma substring_prefix_append pre s :
  substring 0 (String.length pre) (pre ++ s) = pre.
Proof.
  induction pre as [| a pre IH]; cbn.
  - destruct s; reflexivity.
  - rewrite IH. reflexivity.
Qed.

Lemma substring_skip_append pre n m s :
  substring (String.length pre + n) m (pre ++ s) = substring n m s.
Proof.
  induction pre as [| a pre IH]; cbn; [reflexivity | exact IH].
Qed.

Lemma substring_all s : substring 0 (String.length s) s = s.
Proof.
  induction s as [| a s IH]; cbn; [reflexivity | rewrite IH; reflexivity].
Qed.

Lemma length_append s t :
  String.length (s ++ t) = String.length s + String.length t.
Proof.
  induction s as [| a s IH]; cbn; [reflexivity | rewrite IH; reflexivity].
Qed.

(** With one argument, the first "%1" of the message is replaced by the
    argument and the rest of the message is kept. *)
Lemma fillMessageArgs_first_placeholder pre post arg :
  has_percent pre = false ->
  fillMessageArgs 0 [arg] (pre ++ "%1" ++ post) = pre ++ arg ++ post.
Proof.
  intros Hp. cbn [fillMessageArgs].
  change ("%" ++ to_string 1) with "%1".
  rewrite (index_first_placeholder pre post Hp).
  unfold replace. rewrite substring_prefix_append.
  rewrite substring_skip_append, length_append.
  replace (String.length pre + String.length ("%1" ++ post)
           - (String.length pre + String.length "%1"))
    with (String.length post) by (cbn; lia).
  change (substring (String.length "%1") (String.length post) ("%1" ++ post))
    with (substring 0 (String.length post) post).
  rewrite substring_all. reflexivity.
Qed.

(** The three stores of the Message branch. *)
Lemma message_stores_keep_condition msgPropVal template c st :
  conditions (jsonValue st) = Some (JArray [JObject c]) ->
  exists st',
    (store (assign (condition ++ [Key "Message"])
              (JString (fillMessageArgs 0 [msgPropVal] template))) ;;
     store (assign (condition ++ [Key "MessageArgs"])
              (JArray (map JString [msgPropVal]))) ;;
     store (assign (condition ++ [Key "MessageId"])
              (JString "OpenBMC.0.2.HardwareIsolationReason")) ;;
     ret Continue) st
    = Returned Continue st'
    /\ conditions (jsonValue st')
       = Some (JArray
                 [JObject
                    (obj_put "MessageId"
                       (JString "OpenBMC.0.2.HardwareIsolationReason")
                       (obj_put "MessageArgs" (JArray [JString msgPropVal])
                          (obj_put "Message"
                             (JString (fillMessageArgs 0 [msgPropVal] template))
                             c)))])
    /\ written st' = written st.
Proof.
  intros Hc.
  destruct (store_condition_member "Message"
              (JString (fillMessageArgs 0 [msgPropVal] template)) c st Hc)
    as (j1 & Hs1 & Hc1).
  destruct (store_condition_member "MessageArgs"
              (JArray [JString msgPropVal]) _ (set_json j1 st) Hc1)
    as (j2 & Hs2 & Hc2).
  destruct (store_condition_member "MessageId"
              (JString "OpenBMC.0.2.HardwareIsolationReason") _
              (set_json j2 (set_json j1 st)) Hc2)
    as (j3 & Hs3 & Hc3).
  exists (set_json j3 (set_json j2 (set_json j1 st))).
  cbn [map]. unfold bind. rewrite Hs1, Hs2, Hs3.
  repeat split. exact Hc3.
Qed.

(** C8 (reason message): a Message property with a string value, processed
    while the status has its one condition object, stores in that object the
    registry message of "OpenBMC.0.2.HardwareIsolationReason" with the
    property string filled in as the only argument (the first "%1" is
    replaced, nothing else is), the argument list made of that string alone,
    and the message id; no outcome is written and the loop goes on. *)
Theorem fillCondition_message ext obj msgPropVal msgReg st c :
  getMessage ext "OpenBMC.0.2.HardwareIsolationReason" = Some msgReg ->
  conditions (jsonValue st) = Some (JArray [JObject c]) ->
  exists st',
    fillCondition ext obj ("Message", VString msgPropVal) st
    = Returned Continue st'
    /\ condition_member "Message" (jsonValue st')
       = Some (JString (fillMessageArgs 0 [msgPropVal] (message msgReg)))
    /\ condition_member "MessageArgs" (jsonValue st')
       = Some (JArray [JString msgPropVal])
    /\ condition_member "MessageId" (jsonValue st')
       = Some (JString "OpenBMC.0.2.HardwareIsolationReason")
    /\ written st' = written st
    /\ (forall pre post,
           message msgReg = pre ++ "%1" ++ post ->
           has_percent pre = false ->
           condition_member "Message" (jsonValue st')
           = Some (JString (pre ++ msgPropVal ++ post))).
Proof.
  intros Hm Hc.
  destruct (message_stores_keep_condition msgPropVal (message msgReg) c st Hc)
    as (st' & Hr & Hc' & Hw).
  assert (Hmsg :
    condition_member "Message" (jsonValue st')
    = Some (JString (fillMessageArgs 0 [msgPropVal] (message msgReg)))).
  { rewrite (condition_member_of_conditions _ _ "Message" Hc').
    rewrite obj_find_put_other by discriminate.
    rewrite obj_find_put_other by discriminate.
    apply obj_find_put_same. }
  exists st'. split.
  - unfold fillCondition. cbn [fst snd String.eqb Ascii.eqb Bool.eqb].
    rewrite Hm. exact Hr.
  - split; [exact Hmsg |]. split; [| split; [| split; [exact Hw |]]].
    + rewrite (condition_member_of_conditions _ _ "MessageArgs" Hc').
      rewrite obj_find_put_other by discriminate.
      apply obj_find_put_same.
    + rewrite (condition_member_of_conditions _ _ "MessageId" Hc').
      apply obj_find_put_same.
    + intros pre post Ht Hp. rewrite Hmsg, Ht.
      rewrite (fillMessageArgs_first_placeholder pre post msgPropVal Hp).
      reflexivity.
Qed.

(** The scenario of the claim: message "Reason: %1 detected", argument
    "overheat". *)
Lemma fillCondition_message_witness :
  exists st',
    fillCondition Fixture.ext
      "/xyz/openbmc_project/logging/hw_isolation_status/1"
      ("Message", VString "overheat")
      (mkState Fixture.one_empty_condition [])
    = Returned Continue st'
    /\ condition_member "Message" (jsonValue st')
       = Some (JString "Reason: overheat detected")
    /\ condition_member "MessageArgs" (jsonValue st')
       = Some (JArray [JString "overheat"])
    /\ condition_member "MessageId" (jsonValue st')
       = Some (JString "OpenBMC.0.2.HardwareIsolationReason")
    /\ written st' = []
    /\ (forall pre post,
           "Reason: %1 detected" = pre ++ "%1" ++ post ->
           has_percent pre = false ->
           condition_member "Message" (jsonValue st')
           = Some (JString (pre ++ "overheat" ++ post))).
Proof.
  exact (fillCondition_message Fixture.ext
           "/xyz/openbmc_project/logging/hw_isolation_status/1" "overheat"
           {| message := "Reason: %1 detected" |}
           (mkState Fixture.one_empty_condition []) [] eq_refl eq_refl).
Defined.

(** ** Status: the one condition object *)

Lemma assign_status_member k v j :
  status_assignable j = true ->
  exists j',
    assign [Key "Status"; Key k] v j = Some j'
    /\ lookup [Key "Status"; Key k] j' = Some v
    /\ status_assignable j' = true.
Proof.
  unfold status_assignable. intros H.
  destruct j as [| | | | |m]; try discriminate.
  - eexists. split; [reflexivity |]. cbn. rewrite String.eqb_refl. auto.
  - cbn in H. cbn [assign child].
    destruct (obj_find "Status" m) as [[| | | | |ms] |] eqn:Hs;
      try discriminate; cbn [assign child put_child];
      try (destruct (obj_find k ms));
      (eexists; split; [reflexivity |]);
      cbn [lookup child]; rewrite !obj_find_put_same;
      cbn [obj_find]; rewrite ?String.eqb_refl, ?obj_find_put_same; auto.
Qed.

(** The head of the properties handler makes [Status.Conditions] an array of
    one empty object. *)
Lemma fillStatus_head st :
  status_assignable (jsonValue st) = true ->
  exists j',
    (store (assign [Key "Status"; Key "State"] (JString "Disabled")) ;;
     store (assign [Key "Status"; Key "Conditions"] (JArray [JObject []])))
      st
    = Returned tt (set_json j' st)
    /\ conditions j' = Some (JArray [JObject []]).
Proof.
  intros H.
  destruct (assign_status_member "State" (JString "Disabled") _ H)
    as (j1 & Ha1 & _ & H1).
  destruct (assign_status_member "Conditions" (JArray [JObject []]) _ H1)
    as (j2 & Ha2 & Hl2 & _).
  exists j2. split; [| exact Hl2].
  unfold bind, store. rewrite Ha1. cbn [jsonValue set_json]. rewrite Ha2.
  reflexivity.
Qed.

Lemma setErrorLogUri_condition ext target isLink c st :
  conditions (jsonValue st) = Some (JArray [JObject c]) ->
  exists j',
    setErrorLogUri ext target logEntryPropPath isLink st
    = Returned tt (set_json j' st)
    /\ conditions j'
       = Some (JArray
                 [JObject (obj_put "LogEntry" (errorLogRef ext target isLink) c)]).
Proof.
  intros H. unfold setErrorLogUri, logEntryPropPath.
  apply store_condition_pointer. exact H.
Qed.

(** The loop over the associations keeps the one condition object and writes
    no outcome. *)
Lemma associations_loop_keeps ext associations st :
  one_condition (jsonValue st) ->
  exists st',
    for_each
      (fun assoc : string * string * string =>
         let '(relation, _, target) := assoc in
         if relation =? "error_log" then
           let errPath := target in
           setErrorLogUri ext errPath logEntryPropPath true ;; ret Continue
         else ret Continue)
      associations st
    = Returned tt st'
    /\ one_condition (jsonValue st')
    /\ written st' = written st.
Proof.
  revert st. induction associations as [| [[relation fwd] target] rest IH];
    intros st Hc.
  - exists st. repeat split. exact Hc.
  - cbn [for_each]. unfold bind at 1.
    destruct (relation =? "error_log").
    + destruct Hc as [c Hc].
      destruct (setErrorLogUri_condition ext target true c st Hc)
        as (j' & Hs & Hj').
      unfold bind at 1. rewrite Hs. cbn [ret].
      destruct (IH (set_json j' st)) as (st' & Hr & Hc' & Hw).
      { eexists. exact Hj'. }
      exists st'. repeat split; assumption.
    + cbn [ret]. apply IH. exact Hc.
Qed.

(** Every property is processed without an exception and keeps the one
    condition object. *)
Lemma fillCondition_keeps ext obj property st :
  one_condition (jsonValue st) ->
  exists f st',
    fillCondition ext obj property st = Returned f st'
    /\ one_condition (jsonValue st').
Proof.
  intros Hc. destruct property as [key val]. unfold fillCondition.
  cbn [fst snd].
  assert (Hfail : forall f : Flow,
    exists (f' : Flow) st',
      (respond internalError ;; ret f) st = Returned f' st'
      /\ one_condition (jsonValue st')).
  { intros f. eexists _, _. split; [reflexivity | exact Hc]. }
  destruct (key =? "Associations").
  { destruct val as [s | n | associations]; try apply Hfail.
    destruct (associations_loop_keeps ext associations st Hc)
      as (st' & Hr & Hc' & _).
    exists Continue, st'. rewrite (bind_Returned _ _ _ _ _ Hr).
    split; [reflexivity | exact Hc']. }
  destruct (key =? "Timestamp").
  { destruct val as [s | n | associations]; try apply Hfail.
    destruct Hc as [c Hc].
    destruct (store_condition_member "Timestamp"
                (JString (getDateTime ext n)) c st Hc) as (j' & Hs & Hj').
    exists Continue, (set_json j' st). unfold bind. rewrite Hs.
    split; [reflexivity | eexists; exact Hj']. }
  destruct (key =? "Message").
  { destruct val as [s | n | associations]; try apply Hfail.
    destruct (getMessage ext "OpenBMC.0.2.HardwareIsolationReason")
      as [msgReg |] eqn:Hm; [| apply Hfail].
    destruct Hc as [c Hc].
    destruct (message_stores_keep_condition s (message msgReg) c st Hc)
      as (st' & Hr & Hc' & _).
    exists Continue, st'. split; [exact Hr | eexists; exact Hc']. }
  destruct (key =? "Severity").
  { destruct val as [s | n | associations]; try apply Hfail.
    unfold setSeverity, severityPropPath.
    assert (Hset : forall v,
      exists f st',
        (ok <- (store (assign_pointer ["Status"; "Conditions"; "0"; "Severity"]
                         (JString v)) ;; ret true) ;;
         if negb ok then ret Return else ret Continue) st
        = Returned f st'
        /\ one_condition (jsonValue st')).
    { intros v. destruct Hc as [c Hc].
      destruct (store_condition_pointer "Severity" (JString v) c st Hc)
        as (j' & Hs & Hj').
      exists Continue, (set_json j' st). unfold bind. rewrite Hs.
      split; [reflexivity | eexists; exact Hj']. }
    destruct (s =? "xyz.openbmc_project.Logging.Event.SeverityLevel.Critical");
      [apply Hset |].
    destruct ((s =? "xyz.openbmc_project.Logging.Event.SeverityLevel.Warning")
              || (s =? "xyz.openbmc_project.Logging.Event.SeverityLevel.Unknown"));
      [apply Hset |].
    destruct (s =? "xyz.openbmc_project.Logging.Event.SeverityLevel.Ok");
      [apply Hset |].
    eexists _, _. split; [reflexivity | exact Hc]. }
  exists Continue, st. split; [reflexivity | exact Hc].
Qed.

Lemma properties_loop_keeps ext obj properties st :
  one_condition (jsonValue st) ->
  exists st',
    for_each (fillCondition ext obj) properties st = Returned tt st'
    /\ one_condition (jsonValue st').
Proof.
  revert st. induction properties as [| property rest IH]; intros st Hc.
  - exists st. split; [reflexivity | exact Hc].
  - destruct (fillCondition_keeps ext obj property st Hc)
      as (f & st1 & Hr & Hc1).
    cbn [for_each]. rewrite (bind_Returned _ _ _ _ _ Hr).
    destruct f; [apply IH; exact Hc1 |].
    exists st1. split; [reflexivity | exact Hc1].
Qed.

(** The properties handler, run on a response whose [Status] can be
    assigned, returns with [Status.Conditions] an array of one object. *)
Lemma fillStatus_keeps_one_condition ext obj properties st :
  status_assignable (jsonValue st) = true ->
  exists st',
    fillStatus ext obj 0%Z properties st = Returned tt st'
    /\ one_condition (jsonValue st').
Proof.
  intros Hs.
  destruct (fillStatus_head st Hs) as (j' & Hh & Hj').
  destruct (properties_loop_keeps ext obj properties (set_json j' st))
    as (st' & Hr & Hc').
  { exists []. exact Hj'. }
  exists st'. split; [| exact Hc'].
  unfold fillStatus. cbn [failed Z.eqb negb].
  unfold bind in Hh |- *.
  destruct (store (assign [Key "Status"; Key "State"] (JString "Disabled"))
              st) as [[] st1 | st1 | st1]; try discriminate.
  rewrite Hh. exact Hr.
Qed.

(** C10 (one condition object): when a status render finds the status event,
    its one owner and its properties, and [Status] of the response can be
    assigned, it returns with [Status.Conditions] an array of exactly one
    object, whatever the properties and their associations are; and from a
    response with one condition object, the severity write and the log-entry
    write both land in that object and leave the array with its one
    element. *)
Theorem getHwIsolationStatus_one_condition
  ext bus path st endpoints event owner ifs properties :
  endpoints_reply bus (calls st) (endpointsCall (path ++ "/event_log"))
  = (0%Z, Some endpoints) ->
  findHwStatusEventObj ext endpoints = Some event ->
  object_reply bus
    (calls (log_call (endpointsCall (path ++ "/event_log")) st))
    (eventOwnerCall event)
  = (0%Z, [(owner, ifs)]) ->
  owner <> "" ->
  properties_reply bus
    (calls (log_call (eventOwnerCall event)
              (log_call (endpointsCall (path ++ "/event_log")) st)))
    (getAllCall owner event)
  = (0%Z, properties) ->
  status_assignable (jsonValue st) = true ->
  (exists st',
      getHwIsolationStatus ext bus path st = Returned tt st'
      /\ one_condition (jsonValue st'))
  /\ (forall st1 c v,
         conditions (jsonValue st1) = Some (JArray [JObject c]) ->
         exists j',
           store (assign_pointer severityPropPath v) st1
           = Returned tt (set_json j' st1)
           /\ conditions j' = Some (JArray [JObject (obj_put "Severity" v c)]))
  /\ (forall st1 c target,
         conditions (jsonValue st1) = Some (JArray [JObject c]) ->
         exists j',
           setErrorLogUri ext target logEntryPropPath true st1
           = Returned tt (set_json j' st1)
           /\ conditions j'
              = Some (JArray
                        [JObject
                           (obj_put "LogEntry" (errorLogRef ext target true)
                              c)])).
Proof.
  intros He Hf Ho Hn Hp Hs. split; [| split].
  - unfold endpointsCall, eventOwnerCall, getObjectCall, getAllCall in *.
    unfold getHwIsolationStatus, async_method_call.
    rewrite He. cbn [failed Z.eqb negb]. rewrite Hf, Ho.
    cbn [failed Z.eqb negb List.length Nat.ltb Nat.leb nth_error fst].
    destruct (String.eqb_spec owner ""); [contradiction |].
    rewrite Hp.
    apply fillStatus_keeps_one_condition. exact Hs.
  - intros st1 c v Hc. apply store_condition_pointer. exact Hc.
  - intros st1 c target Hc. apply setErrorLogUri_condition. exact Hc.
Qed.

(** A status event with two error-log associations, a message, a severity and
    a time stamp, rendered into an empty response. *)
Lemma getHwIsolationStatus_one_condition_witness :
  exists st',
    getHwIsolationStatus Fixture.ext Fixture.bus_status_event
      "/xyz/openbmc_project/inventory/system/cpu0" Fixture.st0
    = Returned tt st'
    /\ one_condition (jsonValue st').
Proof.
  refine (proj1 (getHwIsolationStatus_one_condition Fixture.ext
                   Fixture.bus_status_event
                   "/xyz/openbmc_project/inventory/system/cpu0" Fixture.st0
                   ["/xyz/openbmc_project/logging/entry/7";
                    "/xyz/openbmc_project/logging/hw_isolation_status/1"]
                   "/xyz/openbmc_project/logging/hw_isolation_status/1"
                   "xyz.openbmc_project.Logging"
                   ["xyz.openbmc_project.Logging.Event"]
                   Fixture.event_properties
                   eq_refl eq_refl eq_refl _ eq_refl eq_refl)).
  discriminate.
Defined.

(** ** One outcome for each orchestration *)

Lemma bind_silent {A B : Type} (m : M A) (k : A -> M B) st :
  trace (final (m st)) = trace st ->
  (forall a st1, trace (final (k a st1)) = trace st1) ->
  trace (final (bind m k st)) = trace st.
Proof.
  intros Hm Hk. unfold bind.
  destruct (m st) as [a st1 | st1 | st1]; cbn in *;
    [rewrite Hk | |]; exact Hm.
Qed.

Lemma store_silent upd st : trace (final (store upd st)) = trace st.
Proof.
  unfold store. destruct (upd (jsonValue st)); reflexivity.
Qed.

Lemma for_each_silent {A : Type} (body : A -> M Flow) l st :
  (forall x st1, trace (final (body x st1)) = trace st1) ->
  trace (final (for_each body l st)) = trace st.
Proof.
  intros Hb. revert st. induction l as [| x rest IH]; intros st.
  - reflexivity.
  - cbn [for_each]. apply bind_silent; [apply Hb |].
    intros [|] st1; [apply IH | reflexivity].
Qed.

Lemma bind_silent_then {A B : Type} (m : M A) (k : A -> M B) st :
  trace (final (m st)) = trace st ->
  (forall a st1, ends_quietly_or_with_one st1 (k a st1)) ->
  ends_quietly_or_with_one st (bind m k st).
Proof.
  intros Hm Hk. unfold bind, ends_quietly_or_with_one in *.
  destruct (m st) as [a st1 | st1 | st1]; cbn in *.
  - rewrite <- Hm. apply Hk.
  - left. exact Hm.
  - left. exact Hm.
Qed.

Lemma for_each_ends {A : Type} (body : A -> M Flow) l st :
  (forall x st1, continues_or_ends st1 (body x st1)) ->
  ends_quietly_or_with_one st (for_each body l st).
Proof.
  intros Hb. revert st. induction l as [| x rest IH]; intros st.
  - left. reflexivity.
  - cbn [for_each]. unfold bind. specialize (Hb x st).
    destruct (body x st) as [[|] st1 | st1 | st1]; cbn in Hb.
    + specialize (IH st1). unfold ends_quietly_or_with_one in *.
      rewrite <- Hb. exact IH.
    + exact Hb.
    + exact Hb.
    + exact Hb.
Qed.

Lemma setSeverity_ends objPath ptr severityVal st :
  match setSeverity objPath ptr severityVal st with
  | Returned true st' => trace st' = trace st
  | e => ends_quietly_or_with_one st e
  end.
Proof.
  unfold setSeverity, bind, store, respond, ret.
  split_ifs;
    try (destruct (assign_pointer ptr _ (jsonValue st));
         [reflexivity | left; reflexivity]).
  right. exists internalError. reflexivity.
Qed.

Lemma fillCondition_continues_or_ends ext obj property st :
  continues_or_ends st (fillCondition ext obj property st).
Proof.
  destruct property as [key val]. unfold fillCondition. cbn [fst snd].
  assert (Hfail :
    continues_or_ends st ((respond internalError ;; ret Return) st)).
  { right. exists internalError. reflexivity. }
  destruct (key =? "Associations").
  { destruct val as [s | n | associations]; try exact Hfail.
    match goal with
    | |- continues_or_ends _ (bind (for_each ?body _) _ _) =>
        pose proof (for_each_silent body associations st) as Hq
    end.
    unfold bind at 1.
    match type of Hq with
    | _ -> trace (final ?e) = _ => destruct e as [[] st1 | st1 | st1]
    end; cbn in Hq |- *; [| left | left]; apply Hq;
      (intros [[relation fwd] target] st2;
       destruct (relation =? "error_log"); [| reflexivity];
       apply bind_silent; [apply store_silent | reflexivity]). }
  destruct (key =? "Timestamp").
  { destruct val as [s | n | associations]; try exact Hfail.
    unfold bind, store.
    destruct (assign _ _ (jsonValue st)); [reflexivity | left; reflexivity]. }
  destruct (key =? "Message").
  { destruct val as [s | n | associations]; try exact Hfail.
    destruct (getMessage ext "OpenBMC.0.2.HardwareIsolationReason");
      [| exact Hfail].
    unfold bind, store, ret.
    destruct (assign _ _ (jsonValue st)); [| left; reflexivity].
    cbn [jsonValue set_json].
    match goal with
    | |- context [assign ?p ?v ?j] => destruct (assign p v j)
    end; [| left; reflexivity].
    cbn [jsonValue set_json].
    match goal with
    | |- context [assign ?p ?v ?j] => destruct (assign p v j)
    end; [reflexivity | left; reflexivity]. }
  destruct (key =? "Severity").
  { destruct val as [s | n | associations]; try exact Hfail.
    pose proof (setSeverity_ends obj severityPropPath s st) as Hs.
    unfold bind.
    destruct (setSeverity obj severityPropPath s st) as [[|] st1 | st1 | st1];
      exact Hs. }
  reflexivity.
Qed.

Lemma respond_ends o st : ends_quietly_or_with_one st (respond o st).
Proof.
  right. exists o. reflexivity.
Qed.

Lemma fillStatus_ends ext obj ec properties st :
  ends_quietly_or_with_one st (fillStatus ext obj ec properties st).
Proof.
  unfold fillStatus. destruct (failed ec); [apply respond_ends |].
  apply bind_silent_then; [apply store_silent |]. intros _ st1.
  apply bind_silent_then; [apply store_silent |]. intros _ st2.
  apply for_each_ends. intros property st3.
  apply fillCondition_continues_or_ends.
Qed.

(** A handler that puts no call on the bus is the end of its chain. *)
Lemma ends_at_most_one {A : Type} st (e : Exec A) :
  ends_quietly_or_with_one st e -> writes_at_most_one st e.
Proof.
  intros [H | [o H]]; exists []; cbn [map app];
    [left; rewrite app_nil_r | right; exists o]; exact H.
Qed.

Lemma respond_at_most_one o st : writes_at_most_one st (respond o st).
Proof.
  apply ends_at_most_one, respond_ends.
Qed.

Lemma silent_at_most_one {A : Type} st (e : Exec A) :
  trace (final e) = trace st -> writes_at_most_one st e.
Proof.
  intros H. apply ends_at_most_one. left. exact H.
Qed.

(** A call whose handler writes at most one outcome, last, does so too. *)
Lemma async_at_most_one {A : Type} reply
  (handler : error_code -> A -> M unit) c st :
  (forall ec a st1, writes_at_most_one st1 (handler ec a st1)) ->
  writes_at_most_one st (async_method_call reply handler c st).
Proof.
  intros H. unfold async_method_call.
  destruct (reply (calls st) c) as [ec a].
  destruct (H ec a (log_call c st)) as [cs [Hcs | [o Hcs]]];
    exists (c :: cs); [left | right; exists o];
    rewrite Hcs; cbn [log_call trace map];
    rewrite <- app_assoc; reflexivity.
Qed.

(** An outcome list grows by at most one element. *)
Lemma writes_at_most_one_written {A : Type} st (e : Exec A) :
  writes_at_most_one st e ->
  written (final e) = written st
  \/ exists o, written (final e) = (written st ++ [o])%list.
Proof.
  assert (Hc : forall cs, written_of (map Called cs) = []).
  { induction cs as [| c cs IH]; [reflexivity | exact IH]. }
  intros [cs [H | [o H]]]; unfold written; rewrite H.
  - left. rewrite written_of_app, Hc. apply app_nil_r.
  - right. exists o. rewrite !written_of_app, Hc. reflexivity.
Qed.

Lemma isolateResource_at_most_one bus rn rid path svc st :
  writes_at_most_one st (isolateResource bus rn rid path svc st).
Proof.
  apply async_at_most_one. intros ec err st1.
  destruct (negb (failed ec)); [apply respond_at_most_one |].
  destruct err as [e |]; [| apply respond_at_most_one].
  split_ifs; apply respond_at_most_one.
Qed.

Lemma deisolateResource_at_most_one bus path svc st :
  writes_at_most_one st (deisolateResource bus path svc st).
Proof.
  apply async_at_most_one. intros ec v st1.
  destruct (failed ec); [apply respond_at_most_one |].
  destruct v as [endpoints |]; [| apply respond_at_most_one].
  destruct (back endpoints); [| apply silent_at_most_one; reflexivity].
  apply async_at_most_one. intros ec' err st2.
  destruct (negb (failed ec')); [apply respond_at_most_one |].
  destruct err as [e |]; [| apply respond_at_most_one].
  split_ifs; apply respond_at_most_one.
Qed.

(** C9 (one terminal outcome): whatever the bus replies, the events of an
    isolation request and of a status render are calls on the bus followed by
    at most one outcome written to the response; so each writes at most one
    outcome, and nothing follows the outcome it writes. *)
Theorem orchestration_writes_at_most_one ext bus :
  (forall rn rid enabled ifaces st,
      let run := processHardwareIsolationReq ext bus rn rid enabled ifaces st in
      writes_at_most_one st run
      /\ (written (final run) = written st
          \/ exists o, written (final run) = (written st ++ [o])%list))
  /\ (forall path st,
         let run := getHwIsolationStatus ext bus path st in
         writes_at_most_one st run
         /\ (written (final run) = written st
             \/ exists o, written (final run) = (written st ++ [o])%list)).
Proof.
  split.
  - intros rn rid enabled ifaces st run.
    assert (H : writes_at_most_one st run);
      [| split; [exact H | apply writes_at_most_one_written; exact H]].
    apply async_at_most_one. intros ec objects st1.
    destruct (failed ec); [apply respond_at_most_one |]. cbv zeta.
    destruct (findResourceObjPath ext rid objects =? "");
      [apply respond_at_most_one |].
    apply async_at_most_one. intros ec' objType st2.
    destruct (failed ec'); [apply respond_at_most_one |].
    destruct (Nat.ltb 1 (List.length objType)); [apply respond_at_most_one |].
    destruct (nth_error objType 0) as [objType0 |];
      [| apply silent_at_most_one; reflexivity].
    destruct (fst objType0 =? ""); [apply respond_at_most_one |].
    destruct (negb enabled);
      [apply isolateResource_at_most_one | apply deisolateResource_at_most_one].
  - intros path st run.
    assert (H : writes_at_most_one st run);
      [| split; [exact H | apply writes_at_most_one_written; exact H]].
    apply async_at_most_one. intros ec v st1.
    destruct (failed ec).
    { destruct (ec =? EBADR)%Z;
        [apply silent_at_most_one; reflexivity | apply respond_at_most_one]. }
    destruct v as [endpoints |]; [| apply respond_at_most_one].
    destruct (findHwStatusEventObj ext endpoints) as [event |];
      [| apply silent_at_most_one; reflexivity].
    apply async_at_most_one. intros ec' objType st2.
    destruct (failed ec'); [apply respond_at_most_one |].
    destruct (Nat.ltb 1 (List.length objType)); [apply respond_at_most_one |].
    destruct (nth_error objType 0) as [objType0 |];
      [| apply silent_at_most_one; reflexivity].
    destruct (fst objType0 =? ""); [apply respond_at_most_one |].
    apply async_at_most_one. intros ec'' properties st3.
    apply ends_at_most_one, fillStatus_ends.
Qed.

(** * Further properties of the utilities *)

(** ** isolateResource *)

(** Whatever the bus replies, [isolateResource] puts exactly one call on the
    bus, the Create call for the resource on the owner's service, and then
    writes exactly one outcome; the outcome is one of seven, and it is
    success exactly when the call reports no error. *)
Theorem isolateResource_one_call_one_outcome bus rn rid path svc st :
  exists o,
    isolateResource bus rn rid path svc st
    = Returned tt (write o (log_call (createCall path svc) st))
    /\ In o (isolate_outcomes rn rid)
    /\ (o = success
        <-> fst (message_reply bus (calls st) (createCall path svc)) = 0%Z).
Proof.
  unfold isolateResource, async_method_call. fold (createCall path svc).
  destruct (message_reply bus (calls st) (createCall path svc)) as [ec err].
  cbn [fst]. unfold failed, isolate_outcomes.
  destruct (Z.eqb_spec ec 0) as [-> | Hec]; cbn [negb].
  - exists success. split; [reflexivity |]. split; [cbn; auto | tauto].
  - assert (Hno : forall o, o <> success -> (o = success <-> ec = 0%Z))
      by (intros o Ho; split; intros; contradiction).
    destruct err as [e |].
    + split_ifs; eexists; (split; [reflexivity |]);
        (split; [cbn; tauto | apply Hno; discriminate]).
    + exists internalError. split; [reflexivity |].
      split; [cbn; auto | apply Hno; discriminate].
Qed.

(** The scenario of a resource that is isolated already. *)
Lemma isolateResource_error_rows_witness :
  isolateResource Fixture.bus_isolated_already "Processor" "cpu0"
    "/inventory/system/cpu0" "xyz.svc.A" Fixture.st0
  = Returned tt
      (write (resourceAlreadyExists "@odata.id" "Processor" "cpu0")
         (log_call (createCall "/inventory/system/cpu0" "xyz.svc.A")
            Fixture.st0)).
Proof.
  refine (proj1 (proj2 (proj2
            (isolateResource_error_rows Fixture.bus_isolated_already
               "Processor" "cpu0" "/inventory/system/cpu0" "xyz.svc.A"
               Fixture.st0 5%Z
               "xyz.openbmc_project.HardwareIsolation.Error.IsolatedAlready"
               "" eq_refl _))) eq_refl).
  discriminate.
Defined.

(** ** deisolateResource *)

(** When the read of the isolated_hw_entry endpoints fails, or its value is
    not a list of strings, the de-isolation writes internalError and the read
    stays its only call: nothing is deleted. *)
Theorem deisolateResource_read_failed bus path svc st ec v :
  endpoints_reply bus (calls st) (endpointsCall (path ++ "/isolated_hw_entry"))
  = (ec, v) ->
  ec <> 0%Z \/ v = None ->
  deisolateResource bus path svc st
  = Returned tt
      (write internalError
         (log_call (endpointsCall (path ++ "/isolated_hw_entry")) st)).
Proof.
  intros Hr Hf. unfold deisolateResource, async_method_call.
  fold (endpointsCall (path ++ "/isolated_hw_entry")). rewrite Hr.
  unfold failed. destruct (Z.eqb_spec ec 0) as [-> | Hec]; cbn [negb].
  - destruct Hf as [Hf | ->]; [contradiction | reflexivity].
  - reflexivity.
Qed.

Lemma deisolateResource_read_failed_witness :
  deisolateResource Fixture.bus_down "/inv/cpu0" "xyz.svc.A" Fixture.st0
  = Returned tt
      (write internalError
         (log_call (endpointsCall "/inv/cpu0/isolated_hw_entry") Fixture.st0)).
Proof.
  apply (deisolateResource_read_failed Fixture.bus_down "/inv/cpu0"
           "xyz.svc.A" Fixture.st0 5%Z None eq_refl).
  left. discriminate.
Defined.

(** A Delete call that fails is mapped by its error name: NotAllowed gives
    propertyNotWritable("Entry"), Unavailable gives resourceInStandby, and
    any other name, or none, gives internalError. *)
Theorem deisolateResource_delete_rejected bus path svc st endpoints ec err :
  endpoints_reply bus (calls st) (endpointsCall (path ++ "/isolated_hw_entry"))
  = (0%Z, Some endpoints) ->
  endpoints <> [] ->
  message_reply bus
    (calls (log_call (endpointsCall (path ++ "/isolated_hw_entry")) st))
    (deleteCall svc (last endpoints ""))
  = (ec, err) ->
  ec <> 0%Z ->
  let run o :=
    deisolateResource bus path svc st
    = Returned tt
        (write o
           (log_call (deleteCall svc (last endpoints ""))
              (log_call (endpointsCall (path ++ "/isolated_hw_entry")) st))) in
  (forall e,
      err = Some e ->
      name e = "xyz.openbmc_project.Common.Error.NotAllowed" ->
      run (propertyNotWritable "Entry"))
  /\ (forall e,
         err = Some e ->
         name e = "xyz.openbmc_project.Common.Error.Unavailable" ->
         run resourceInStandby)
  /\ (forall e,
         err = Some e ->
         name e <> "xyz.openbmc_project.Common.Error.NotAllowed" ->
         name e <> "xyz.openbmc_project.Common.Error.Unavailable" ->
         run internalError)
  /\ (err = None -> run internalError).
Proof.
  intros Hr Hne Hd Hec run. subst run.
  unfold deisolateResource, async_method_call.
  fold (endpointsCall (path ++ "/isolated_hw_entry")). rewrite Hr.
  cbn [failed Z.eqb negb]. rewrite (back_last endpoints "" Hne).
  fold (deleteCall svc (last endpoints "")). rewrite Hd.
  rewrite (failed_true ec Hec). cbn [negb].
  repeat split.
  - intros e -> Hn. rewrite Hn. reflexivity.
  - intros e -> Hn. rewrite Hn. reflexivity.
  - intros e -> H1 H2.
    destruct (String.eqb_spec (name e)
                "xyz.openbmc_project.Common.Error.NotAllowed");
      [contradiction |].
    destruct (String.eqb_spec (name e)
                "xyz.openbmc_project.Common.Error.Unavailable");
      [contradiction | reflexivity].
  - intros ->. reflexivity.
Qed.

Lemma deisolateResource_delete_rejected_witness :
  deisolateResource Fixture.bus_delete_not_allowed "/inv/cpu0" "xyz.svc.A"
    Fixture.st0
  = Returned tt
      (write (propertyNotWritable "Entry")
         (log_call (deleteCall "xyz.svc.A" "/e/2")
            (log_call (endpointsCall "/inv/cpu0/isolated_hw_entry")
               Fixture.st0))).
Proof.
  refine (proj1
            (deisolateResource_delete_rejected Fixture.bus_delete_not_allowed
               "/inv/cpu0" "xyz.svc.A" Fixture.st0 ["/e/1"; "/e/2"] 1%Z
               (Fixture.dbus_error
                  "xyz.openbmc_project.Common.Error.NotAllowed")
               eq_refl _ eq_refl _) _ eq_refl eq_refl);
    discriminate.
Defined.

(** ** processHardwareIsolationReq *)

Create Rewrite HintDb events.
#[local] Hint Rewrite written_write written_log_call calls_write
  calls_log_call : events.

(** The object the request acts on is the first path of the subtree reply
    whose [filename()] is the resource id; the empty path stands for no
    match. *)
Theorem findResourceObjPath_first_match ext rid objects :
  (exists pre post,
      objects = (pre ++ findResourceObjPath ext rid objects :: post)%list
      /\ Forall (fun object => filename ext object <> rid) pre
      /\ filename ext (findResourceObjPath ext rid objects) = rid)
  \/ (findResourceObjPath ext rid objects = ""
      /\ Forall (fun object => filename ext object <> rid) objects).
Proof.
  induction objects as [| object rest IH]; cbn [findResourceObjPath].
  - right. split; [reflexivity | constructor].
  - destruct (String.eqb_spec (filename ext object) rid) as [Heq | Hne].
    + left. exists [], rest. repeat split; [constructor | exact Heq].
    + destruct IH as [(pre & post & Hl & Hpre & Hf) | [Hr Hall]].
      * left. exists (object :: pre), post. split; [| split].
        -- cbn [app]. rewrite <- Hl. reflexivity.
        -- constructor; assumption.
        -- exact Hf.
      * right. split; [exact Hr | constructor; assumption].
Qed.

(** When the subtree query fails, the request writes internalError and makes
    no further call, whatever the resource and the flag are. *)
Theorem processHardwareIsolationReq_subtree_failed
  ext bus rn rid enabled ifaces st ec objects :
  paths_reply bus (calls st) (subTreePathsCall ifaces) = (ec, objects) ->
  ec <> 0%Z ->
  processHardwareIsolationReq ext bus rn rid enabled ifaces st
  = Returned tt (write internalError (log_call (subTreePathsCall ifaces) st)).
Proof.
  intros Hp Hec. unfold subTreePathsCall in *.
  unfold processHardwareIsolationReq, async_method_call.
  rewrite Hp, (failed_true ec Hec). reflexivity.
Qed.

Lemma processHardwareIsolationReq_subtree_failed_witness :
  processHardwareIsolationReq Fixture.ext Fixture.bus_down "Processor" "cpu0"
    true ["xyz.openbmc_project.Inventory.Item.Cpu"] Fixture.st0
  = Returned tt
      (write internalError
         (log_call
            (subTreePathsCall ["xyz.openbmc_project.Inventory.Item.Cpu"])
            Fixture.st0)).
Proof.
  apply (processHardwareIsolationReq_subtree_failed Fixture.ext
           Fixture.bus_down "Processor" "cpu0" true
           ["xyz.openbmc_project.Inventory.Item.Cpu"] Fixture.st0 5%Z []
           eq_refl).
  discriminate.
Defined.

(** When the resource is found and the query for the owner of the isolation
    interface fails, the request writes internalError after these two calls:
    neither Create nor Delete is tried. *)
Theorem processHardwareIsolationReq_owner_query_failed
  ext bus rn rid enabled ifaces st objects ec objType :
  paths_reply bus (calls st) (subTreePathsCall ifaces) = (0%Z, objects) ->
  findResourceObjPath ext rid objects <> "" ->
  object_reply bus (calls (log_call (subTreePathsCall ifaces) st))
    hwIsolationOwnerCall = (ec, objType) ->
  ec <> 0%Z ->
  processHardwareIsolationReq ext bus rn rid enabled ifaces st
  = Returned tt
      (write internalError
         (log_call hwIsolationOwnerCall
            (log_call (subTreePathsCall ifaces) st))).
Proof.
  intros Hp Hf Ho Hec.
  unfold hwIsolationOwnerCall, getObjectCall, subTreePathsCall in *.
  unfold processHardwareIsolationReq, async_method_call.
  rewrite Hp. cbn [failed Z.eqb negb].
  destruct (String.eqb_spec (findResourceObjPath ext rid objects) "");
    [contradiction |].
  rewrite Ho, (failed_true ec Hec). reflexivity.
Qed.

Lemma processHardwareIsolationReq_owner_query_failed_witness :
  processHardwareIsolationReq Fixture.ext Fixture.bus_owner_query_fails
    "Processor" "cpu0" false ["xyz.openbmc_project.Inventory.Item.Cpu"]
    Fixture.st0
  = Returned tt
      (write internalError
         (log_call hwIsolationOwnerCall
            (log_call
               (subTreePathsCall ["xyz.openbmc_project.Inventory.Item.Cpu"])
               Fixture.st0))).
Proof.
  refine (processHardwareIsolationReq_owner_query_failed Fixture.ext
            Fixture.bus_owner_query_fails "Processor" "cpu0" false
            ["xyz.openbmc_project.Inventory.Item.Cpu"] Fixture.st0
            ["/xyz/openbmc_project/inventory/system/cpu0"] 5%Z []
            eq_refl _ eq_refl _); discriminate.
Defined.

(** Two owners of the isolation interface. *)
Lemma processHardwareIsolationReq_owner_rejected_witness :
  processHardwareIsolationReq Fixture.ext Fixture.bus_two_owners
    "Processor" "cpu0" false ["xyz.openbmc_project.Inventory.Item.Cpu"]
    Fixture.st0
  = Returned tt
      (write internalError
         (log_call hwIsolationOwnerCall
            (log_call
               (subTreePathsCall ["xyz.openbmc_project.Inventory.Item.Cpu"])
               Fixture.st0))).
Proof.
  refine (processHardwareIsolationReq_owner_rejected Fixture.ext
            Fixture.bus_two_owners "Processor" "cpu0" false
            ["xyz.openbmc_project.Inventory.Item.Cpu"] Fixture.st0
            ["/xyz/openbmc_project/inventory/system/cpu0"]
            [("xyz.svc.A", []); ("xyz.svc.B", [])] eq_refl _ eq_refl _).
  - discriminate.
  - left. cbn. lia.
Defined.

(** With the resource found and one owner with a name, the request goes on
    as the isolation of the found object when Enabled is false, and as its
    de-isolation when Enabled is true, each on the owner's service. *)
Theorem processHardwareIsolationReq_dispatch
  ext bus rn rid enabled ifaces st objects owner ifs :
  paths_reply bus (calls st) (subTreePathsCall ifaces) = (0%Z, objects) ->
  findResourceObjPath ext rid objects <> "" ->
  object_reply bus (calls (log_call (subTreePathsCall ifaces) st))
    hwIsolationOwnerCall = (0%Z, [(owner, ifs)]) ->
  owner <> "" ->
  processHardwareIsolationReq ext bus rn rid enabled ifaces st
  = (if enabled
     then deisolateResource bus (findResourceObjPath ext rid objects) owner
     else isolateResource bus rn rid (findResourceObjPath ext rid objects)
            owner)
      (log_call hwIsolationOwnerCall (log_call (subTreePathsCall ifaces) st)).
Proof.
  intros Hp Hf Ho Hn.
  unfold hwIsolationOwnerCall, getObjectCall, subTreePathsCall in *.
  unfold processHardwareIsolationReq, async_method_call at 1 2.
  rewrite Hp. cbn [failed Z.eqb negb].
  destruct (String.eqb_spec (findResourceObjPath ext rid objects) "");
    [contradiction |].
  rewrite Ho.
  cbn [failed Z.eqb negb List.length Nat.ltb Nat.leb nth_error fst].
  destruct (String.eqb_spec owner ""); [contradiction |].
  destruct enabled; reflexivity.
Qed.

(** Processor cpu0 is isolated already: the request ends with
    resourceAlreadyExists after the subtree query, the owner query and the
    Create call. *)
Lemma processHardwareIsolationReq_dispatch_witness :
  processHardwareIsolationReq Fixture.ext Fixture.bus_isolated_already
    "Processor" "cpu0" false ["xyz.openbmc_project.Inventory.Item.Cpu"]
    Fixture.st0
  = Returned tt
      (mkState JNull
         [Called (subTreePathsCall ["xyz.openbmc_project.Inventory.Item.Cpu"]);
          Called hwIsolationOwnerCall;
          Called
            (createCall "/xyz/openbmc_project/inventory/system/cpu0"
               "xyz.svc.A");
          Wrote (resourceAlreadyExists "@odata.id" "Processor" "cpu0")]).
Proof.
  rewrite (processHardwareIsolationReq_dispatch Fixture.ext
             Fixture.bus_isolated_already "Processor" "cpu0" false
             ["xyz.openbmc_project.Inventory.Item.Cpu"] Fixture.st0
             ["/xyz/openbmc_project/inventory/system/cpu0"] "xyz.svc.A" []
             eq_refl);
    [reflexivity | discriminate | reflexivity | discriminate].
Defined.

(** The forms a run of [isolateResource] and of [deisolateResource] can
    take. *)
Lemma isolateResource_shape bus rn rid path svc st :
  exists o,
    isolateResource bus rn rid path svc st
    = Returned tt (write o (log_call (createCall path svc) st)).
Proof.
  unfold isolateResource, async_method_call. fold (createCall path svc).
  destruct (message_reply bus (calls st) (createCall path svc)) as [ec err].
  destruct (negb (failed ec)); [eexists; reflexivity |].
  destruct err as [e |]; [| eexists; reflexivity].
  split_ifs; eexists; reflexivity.
Qed.

Lemma deisolateResource_shape bus path svc st :
  deisolateResource bus path svc st
  = Returned tt
      (write internalError
         (log_call (endpointsCall (path ++ "/isolated_hw_entry")) st))
  \/ deisolateResource bus path svc st
     = Undefined (log_call (endpointsCall (path ++ "/isolated_hw_entry")) st)
  \/ exists entry o,
       deisolateResource bus path svc st
       = Returned tt
           (write o
              (log_call (deleteCall svc entry)
                 (log_call (endpointsCall (path ++ "/isolated_hw_entry"))
                    st))).
Proof.
  unfold deisolateResource, async_method_call.
  fold (endpointsCall (path ++ "/isolated_hw_entry")).
  destruct (endpoints_reply bus (calls st) _) as [ec v].
  destruct (failed ec); [left; reflexivity |].
  destruct v as [endpoints |]; [| left; reflexivity].
  destruct (back endpoints) as [entry |]; [| right; left; reflexivity].
  right. right. exists entry. fold (deleteCall svc entry).
  destruct (message_reply bus _ (deleteCall svc entry)) as [ec' err].
  destruct (negb (failed ec')); [eexists; reflexivity |].
  destruct err as [e |]; [| eexists; reflexivity].
  split_ifs; eexists; reflexivity.
Qed.

(** Whatever the bus replies, a request never leaves by an exception, and
    when it returns it has written exactly one outcome; when it stops in
    undefined behaviour it has written none. *)
Theorem processHardwareIsolationReq_returns_one_outcome
  ext bus rn rid enabled ifaces st :
  match processHardwareIsolationReq ext bus rn rid enabled ifaces st with
  | Returned _ st' => exists o, written st' = (written st ++ [o])%list
  | Threw _ => False
  | Undefined st' => written st' = written st
  end.
Proof.
  unfold processHardwareIsolationReq, async_method_call at 1.
  destruct (paths_reply bus (calls st) _) as [ec objects].
  set (st1 := log_call _ st).
  assert (H1 : written st1 = written st) by apply written_log_call.
  destruct (failed ec);
    [exists internalError; cbn [respond]; rewrite written_write, H1;
     reflexivity |].
  cbv zeta.
  destruct (findResourceObjPath ext rid objects =? "");
    [eexists; cbn [respond]; rewrite written_write, H1; reflexivity |].
  unfold async_method_call at 1.
  destruct (object_reply bus (calls st1) _) as [ec' objType].
  set (st2 := log_call _ st1).
  assert (H2 : written st2 = written st)
    by (unfold st2; rewrite written_log_call; exact H1).
  destruct (failed ec');
    [exists internalError; cbn [respond]; rewrite written_write, H2;
     reflexivity |].
  destruct (Nat.ltb 1 (List.length objType));
    [exists internalError; cbn [respond]; rewrite written_write, H2;
     reflexivity |].
  destruct (nth_error objType 0) as [objType0 |]; [| exact H2].
  destruct (fst objType0 =? "");
    [exists internalError; cbn [respond]; rewrite written_write, H2;
     reflexivity |].
  destruct (negb enabled).
  - destruct (isolateResource_shape bus rn rid
                (findResourceObjPath ext rid objects) (fst objType0) st2)
      as [o ->].
    exists o. autorewrite with events. rewrite H2. reflexivity.
  - destruct (deisolateResource_shape bus
                (findResourceObjPath ext rid objects) (fst objType0) st2)
      as [-> | [-> | (entry & o & ->)]].
    + exists internalError. autorewrite with events. rewrite H2. reflexivity.
    + autorewrite with events. exact H2.
    + exists o. autorewrite with events. rewrite H2. reflexivity.
Qed.

(** Whatever the bus replies, the calls of a request are the subtree query
    and at most three more, each one of GetObject, Create, Get and Delete;
    Create is only called when Enabled is false, and Delete only when Enabled
    is true. *)
Theorem processHardwareIsolationReq_calls
  ext bus rn rid enabled ifaces st :
  exists cs,
    calls (final (processHardwareIsolationReq ext bus rn rid enabled ifaces st))
    = (calls st ++ subTreePathsCall ifaces :: cs)%list
    /\ List.length cs <= 3
    /\ Forall
         (fun c =>
            In (method c) ["GetObject"; "Create"; "Get"; "Delete"]
            /\ (method c = "Create" -> enabled = false)
            /\ (method c = "Delete" -> enabled = true))
         cs.
Proof.
  assert (Hdone : forall (cs : list Call) (st' : State),
    calls st' = (calls st ++ subTreePathsCall ifaces :: cs)%list ->
    List.length cs <= 3 ->
    Forall
      (fun c =>
         In (method c) ["GetObject"; "Create"; "Get"; "Delete"]
         /\ (method c = "Create" -> enabled = false)
         /\ (method c = "Delete" -> enabled = true)) cs ->
    exists cs0,
      calls st' = (calls st ++ subTreePathsCall ifaces :: cs0)%list
      /\ List.length cs0 <= 3
      /\ Forall
           (fun c =>
              In (method c) ["GetObject"; "Create"; "Get"; "Delete"]
              /\ (method c = "Create" -> enabled = false)
              /\ (method c = "Delete" -> enabled = true)) cs0)
    by (intros cs st' H1 H2 H3; exists cs; auto).
  assert (Hobj :
    In (method hwIsolationOwnerCall) ["GetObject"; "Create"; "Get"; "Delete"]
    /\ (method hwIsolationOwnerCall = "Create" -> enabled = false)
    /\ (method hwIsolationOwnerCall = "Delete" -> enabled = true))
    by (cbn; repeat split; auto; discriminate).
  unfold processHardwareIsolationReq, async_method_call at 1.
  fold (subTreePathsCall ifaces).
  destruct (paths_reply bus (calls st) _) as [ec objects].
  set (st1 := log_call _ st).
  assert (H1 : calls st1 = (calls st ++ [subTreePathsCall ifaces])%list)
    by apply calls_log_call.
  destruct (failed ec).
  { apply (Hdone []); [| cbn; lia | constructor].
    cbn [final respond]. rewrite calls_write. exact H1. }
  cbv zeta.
  destruct (findResourceObjPath ext rid objects =? "").
  { apply (Hdone []); [| cbn; lia | constructor].
    cbn [final respond]. rewrite calls_write. exact H1. }
  unfold async_method_call at 1. fold hwIsolationOwnerCall.
  change (mkCall "xyz.openbmc_project.ObjectMapper"
            "/xyz/openbmc_project/object_mapper"
            "xyz.openbmc_project.ObjectMapper" "GetObject"
            [ArgString "/xyz/openbmc_project/hardware_isolation";
             ArgStrings ["xyz.openbmc_project.HardwareIsolation.Create"]])
    with hwIsolationOwnerCall.
  destruct (object_reply bus (calls st1) _) as [ec' objType].
  set (st2 := log_call hwIsolationOwnerCall st1).
  assert (H2 : calls st2
               = (calls st ++ [subTreePathsCall ifaces; hwIsolationOwnerCall])%list).
  { unfold st2. rewrite calls_log_call, H1, <- app_assoc. reflexivity. }
  assert (Hend : forall o,
    exists cs0,
      calls (final (respond o st2))
      = (calls st ++ subTreePathsCall ifaces :: cs0)%list
      /\ List.length cs0 <= 3
      /\ Forall
           (fun c =>
              In (method c) ["GetObject"; "Create"; "Get"; "Delete"]
              /\ (method c = "Create" -> enabled = false)
              /\ (method c = "Delete" -> enabled = true)) cs0).
  { intros o. apply (Hdone [hwIsolationOwnerCall]);
      [| cbn; lia | repeat constructor; apply Hobj].
    cbn [final respond]. rewrite calls_write. exact H2. }
  destruct (failed ec'); [apply Hend |].
  destruct (Nat.ltb 1 (List.length objType)); [apply Hend |].
  destruct (nth_error objType 0) as [objType0 |].
  2:{ apply (Hdone [hwIsolationOwnerCall]);
        [exact H2 | cbn; lia | repeat constructor; apply Hobj]. }
  destruct (fst objType0 =? ""); [apply Hend |].
  destruct enabled; cbn [negb].
  - destruct (deisolateResource_shape bus
                (findResourceObjPath ext rid objects) (fst objType0) st2)
      as [-> | [-> | (entry & o & ->)]]; cbn [final].
    + eapply Hdone;
        [autorewrite with events; rewrite H2, <- app_assoc; reflexivity
        | cbn; lia |].
      repeat constructor; cbn; auto; discriminate.
    + eapply Hdone;
        [autorewrite with events; rewrite H2, <- app_assoc; reflexivity
        | cbn; lia |].
      repeat constructor; cbn; auto; discriminate.
    + eapply Hdone;
        [autorewrite with events; rewrite H2, <- !app_assoc; reflexivity
        | cbn; lia |].
      repeat constructor; cbn; auto; discriminate.
  - destruct (isolateResource_shape bus rn rid
                (findResourceObjPath ext rid objects) (fst objType0) st2)
      as [o ->]; cbn [final].
    eapply Hdone;
      [autorewrite with events; rewrite H2, <- app_assoc; reflexivity
      | cbn; lia |].
    repeat constructor; cbn; auto; discriminate.
Qed.

(** ** getHwIsolationStatus *)

(** The status event of a resource is the first endpoint of its event_log
    association whose parent is named hw_isolation_status; there is none
    exactly when no endpoint has such a parent. *)
Theorem findHwStatusEventObj_first_match ext endpoints :
  match findHwStatusEventObj ext endpoints with
  | Some event =>
      exists pre post,
        endpoints = (pre ++ event :: post)%list
        /\ Forall (fun e => is_status_event ext e = false) pre
        /\ is_status_event ext event = true
  | None => Forall (fun e => is_status_event ext e = false) endpoints
  end.
Proof.
  induction endpoints as [| endpoint rest IH]; cbn [findHwStatusEventObj].
  - constructor.
  - fold (is_status_event ext endpoint).
    destruct (is_status_event ext endpoint) eqn:He.
    + exists [], rest. repeat split; [constructor | exact He].
    + destruct (findHwStatusEventObj ext rest) as [event |].
      * destruct IH as (pre & post & Hl & Hpre & Hev).
        exists (endpoint :: pre), post. split; [| split].
        -- cbn [app]. rewrite <- Hl. reflexivity.
        -- constructor; assumption.
        -- exact Hev.
      * constructor; assumption.
Qed.

Lemma findHwStatusEventObj_none ext endpoints :
  Forall (fun e => is_status_event ext e = false) endpoints ->
  findHwStatusEventObj ext endpoints = None.
Proof.
  induction 1 as [| endpoint rest He _ IH]; [reflexivity |].
  cbn [findHwStatusEventObj]. fold (is_status_event ext endpoint).
  rewrite He. exact IH.
Qed.

(** A resource whose event_log endpoints hold no status event is rendered
    without a condition: the read is the only call, the JSON stays as it was
    and no outcome is written. *)
Theorem getHwIsolationStatus_no_status_event ext bus path st endpoints :
  endpoints_reply bus (calls st) (endpointsCall (path ++ "/event_log"))
  = (0%Z, Some endpoints) ->
  Forall (fun e => is_status_event ext e = false) endpoints ->
  getHwIsolationStatus ext bus path st
  = Returned tt
      (mkState (jsonValue st)
         (trace st ++ [Called (endpointsCall (path ++ "/event_log"))])).
Proof.
  intros Hr Hall. unfold endpointsCall in *.
  unfold getHwIsolationStatus, async_method_call.
  rewrite Hr. cbn [failed Z.eqb negb].
  rewrite (findHwStatusEventObj_none ext endpoints Hall). reflexivity.
Qed.

Lemma getHwIsolationStatus_no_status_event_witness :
  getHwIsolationStatus Fixture.ext Fixture.bus_no_status_event "/inv/cpu0"
    (mkState Fixture.one_empty_condition [])
  = Returned tt
      (mkState Fixture.one_empty_condition
         [Called (endpointsCall "/inv/cpu0/event_log")]).
Proof.
  apply (getHwIsolationStatus_no_status_event Fixture.ext
           Fixture.bus_no_status_event "/inv/cpu0"
           (mkState Fixture.one_empty_condition [])
           ["/xyz/openbmc_project/logging/entry/7";
            "/xyz/openbmc_project/logging/entry/9"] eq_refl).
  repeat constructor.
Defined.

(** Two owners of the status event. *)
Lemma getHwIsolationStatus_owner_rejected_witness :
  getHwIsolationStatus Fixture.ext Fixture.bus_two_owners "/inv/cpu0"
    Fixture.st0
  = Returned tt
      (write internalError
         (log_call
            (eventOwnerCall
               "/xyz/openbmc_project/logging/hw_isolation_status/1")
            (log_call (endpointsCall "/inv/cpu0/event_log") Fixture.st0))).
Proof.
  refine (getHwIsolationStatus_owner_rejected Fixture.ext
            Fixture.bus_two_owners "/inv/cpu0" Fixture.st0
            ["/xyz/openbmc_project/logging/hw_isolation_status/1"]
            "/xyz/openbmc_project/logging/hw_isolation_status/1"
            [("xyz.svc.A", []); ("xyz.svc.B", [])]
            eq_refl eq_refl eq_refl _).
  left. cbn. lia.
Defined.

(** When the status event is found and owned by one service but its
    properties cannot be read, the render writes internalError after its
    three calls and leaves the JSON as it was: the state is not set to
    Disabled and no condition is made. *)
Theorem getHwIsolationStatus_properties_failed
  ext bus path st endpoints event owner ifs ec properties :
  endpoints_reply bus (calls st) (endpointsCall (path ++ "/event_log"))
  = (0%Z, Some endpoints) ->
  findHwStatusEventObj ext endpoints = Some event ->
  object_reply bus
    (calls (log_call (endpointsCall (path ++ "/event_log")) st))
    (eventOwnerCall event)
  = (0%Z, [(owner, ifs)]) ->
  owner <> "" ->
  properties_reply bus
    (calls (log_call (eventOwnerCall event)
              (log_call (endpointsCall (path ++ "/event_log")) st)))
    (getAllCall owner event)
  = (ec, properties) ->
  ec <> 0%Z ->
  getHwIsolationStatus ext bus path st
  = Returned tt
      (mkState (jsonValue st)
         (trace st
            ++ [Called (endpointsCall (path ++ "/event_log"));
                Called (eventOwnerCall event);
                Called (getAllCall owner event);
                Wrote internalError])).
Proof.
  intros He Hf Ho Hn Hp Hec.
  unfold endpointsCall, eventOwnerCall, getObjectCall, getAllCall in *.
  unfold getHwIsolationStatus, async_method_call.
  rewrite He. cbn [failed Z.eqb negb]. rewrite Hf, Ho.
  cbn [failed Z.eqb negb List.length Nat.ltb Nat.leb nth_error fst].
  destruct (String.eqb_spec owner ""); [contradiction |].
  rewrite Hp. unfold fillStatus. rewrite (failed_true ec Hec).
  unfold respond, write, log_call. cbn [jsonValue trace].
  rewrite <- !app_assoc. reflexivity.
Qed.

Lemma getHwIsolationStatus_properties_failed_witness :
  getHwIsolationStatus Fixture.ext Fixture.bus_properties_fail "/inv/cpu0"
    Fixture.st0
  = Returned tt
      (mkState JNull
         [Called (endpointsCall "/inv/cpu0/event_log");
          Called
            (eventOwnerCall
               "/xyz/openbmc_project/logging/hw_isolation_status/1");
          Called
            (getAllCall "xyz.openbmc_project.Logging"
               "/xyz/openbmc_project/logging/hw_isolation_status/1");
          Wrote internalError]).
Proof.
  refine (getHwIsolationStatus_properties_failed Fixture.ext
            Fixture.bus_properties_fail "/inv/cpu0" Fixture.st0
            ["/xyz/openbmc_project/logging/hw_isolation_status/1"]
            "/xyz/openbmc_project/logging/hw_isolation_status/1"
            "xyz.openbmc_project.Logging" [] 5%Z []
            eq_refl eq_refl eq_refl _ eq_refl _); discriminate.
Defined.

Lemma bind_silent_then_internal {A B : Type} (m : M A) (k : A -> M B) st :
  trace (final (m st)) = trace st ->
  (forall a st1, ends_silently_or_internal st1 (k a st1)) ->
  ends_silently_or_internal st (bind m k st).
Proof.
  intros Hm Hk. unfold bind, ends_silently_or_internal in *.
  destruct (m st) as [a st1 | st1 | st1]; cbn in *.
  - rewrite <- Hm. apply Hk.
  - left. exact Hm.
  - left. exact Hm.
Qed.

Lemma for_each_fails {A : Type} (body : A -> M Flow) l st :
  (forall x st1, continues_or_fails st1 (body x st1)) ->
  ends_silently_or_internal st (for_each body l st).
Proof.
  intros Hb. revert st. induction l as [| x rest IH]; intros st.
  - left. reflexivity.
  - cbn [for_each]. unfold bind. specialize (Hb x st).
    destruct (body x st) as [[|] st1 | st1 | st1]; cbn in Hb.
    + specialize (IH st1). unfold ends_silently_or_internal in *.
      rewrite <- Hb. exact IH.
    + exact Hb.
    + exact Hb.
    + exact Hb.
Qed.

Lemma setSeverity_fails objPath ptr severityVal st :
  match setSeverity objPath ptr severityVal st with
  | Returned true st' => trace st' = trace st
  | e => ends_silently_or_internal st e
  end.
Proof.
  unfold setSeverity, bind, store, respond, ret.
  split_ifs;
    try (destruct (assign_pointer ptr _ (jsonValue st));
         [reflexivity | left; reflexivity]).
  right. reflexivity.
Qed.

Lemma fillCondition_continues_or_fails ext obj property st :
  continues_or_fails st (fillCondition ext obj property st).
Proof.
  destruct property as [key val]. unfold fillCondition. cbn [fst snd].
  assert (Hfail :
    continues_or_fails st ((respond internalError ;; ret Return) st)).
  { right. reflexivity. }
  destruct (key =? "Associations").
  { destruct val as [s | n | associations]; try exact Hfail.
    match goal with
    | |- continues_or_fails _ (bind (for_each ?body _) _ _) =>
        pose proof (for_each_silent body associations st) as Hq
    end.
    unfold bind at 1.
    match type of Hq with
    | _ -> trace (final ?e) = _ => destruct e as [[] st1 | st1 | st1]
    end; cbn in Hq |- *; [| left | left]; apply Hq;
      (intros [[relation fwd] target] st2;
       destruct (relation =? "error_log"); [| reflexivity];
       apply bind_silent; [apply store_silent | reflexivity]). }
  destruct (key =? "Timestamp").
  { destruct val as [s | n | associations]; try exact Hfail.
    unfold bind, store.
    destruct (assign _ _ (jsonValue st)); [reflexivity | left; reflexivity]. }
  destruct (key =? "Message").
  { destruct val as [s | n | associations]; try exact Hfail.
    destruct (getMessage ext "OpenBMC.0.2.HardwareIsolationReason");
      [| exact Hfail].
    unfold bind, store, ret.
    destruct (assign _ _ (jsonValue st)); [| left; reflexivity].
    cbn [jsonValue set_json].
    match goal with
    | |- context [assign ?p ?v ?j] => destruct (assign p v j)
    end; [| left; reflexivity].
    cbn [jsonValue set_json].
    match goal with
    | |- context [assign ?p ?v ?j] => destruct (assign p v j)
    end; [reflexivity | left; reflexivity]. }
  destruct (key =? "Severity").
  { destruct val as [s | n | associations]; try exact Hfail.
    pose proof (setSeverity_fails obj severityPropPath s st) as Hs.
    unfold bind.
    destruct (setSeverity obj severityPropPath s st) as [[|] st1 | st1 | st1];
      exact Hs. }
  reflexivity.
Qed.

Lemma fillStatus_fails ext obj ec properties st :
  ends_silently_or_internal st (fillStatus ext obj ec properties st).
Proof.
  unfold fillStatus. destruct (failed ec); [right; reflexivity |].
  apply bind_silent_then_internal; [apply store_silent |]. intros _ st1.
  apply bind_silent_then_internal; [apply store_silent |]. intros _ st2.
  apply for_each_fails. intros property st3.
  apply fillCondition_continues_or_fails.
Qed.

Lemma getHwIsolationStatus_shape ext bus path st :
  StatusRun ext path st (getHwIsolationStatus ext bus path st).
Proof.
  unfold getHwIsolationStatus, async_method_call at 1.
  destruct (endpoints_reply bus (calls st) _) as [ec v].
  destruct (failed ec).
  { destruct (ec =? EBADR)%Z;
      [apply status_no_event | apply status_read_failed]. }
  destruct v as [endpoints |]; [| apply status_read_failed].
  destruct (findHwStatusEventObj ext endpoints) as [event |];
    [| apply status_no_event].
  unfold async_method_call at 1.
  match goal with
  | |- context [object_reply bus ?a ?b] =>
      destruct (object_reply bus a b) as [ec' objType]
  end.
  destruct (failed ec'); [apply status_owner_failed |].
  destruct (Nat.ltb 1 (List.length objType)); [apply status_owner_failed |].
  destruct (nth_error objType 0) as [objType0 |];
    [| apply status_no_owner].
  destruct (fst objType0 =? ""); [apply status_owner_failed |].
  unfold async_method_call.
  match goal with
  | |- context [properties_reply bus ?a ?b] =>
      destruct (properties_reply bus a b) as [ec'' properties]
  end.
  apply status_properties.
Qed.

(** Whatever the bus replies, a status render writes no outcome or
    internalError alone: it never reports success or any other error. *)
Theorem getHwIsolationStatus_only_internalError ext bus path st :
  written (final (getHwIsolationStatus ext bus path st)) = written st
  \/ written (final (getHwIsolationStatus ext bus path st))
     = (written st ++ [internalError])%list.
Proof.
  destruct (getHwIsolationStatus_shape ext bus path st)
    as [| | event | event | event owner ec ps].
  - left. cbn [final]. autorewrite with events. reflexivity.
  - right. cbn [final]. autorewrite with events. reflexivity.
  - right. cbn [final]. autorewrite with events. reflexivity.
  - left. cbn [final]. autorewrite with events. reflexivity.
  - match goal with
    | |- context [fillStatus ext event ec ps ?s] =>
        assert (Hs : written s = written st)
          by (autorewrite with events; reflexivity);
        destruct (fillStatus_fails ext event ec ps s) as [H | H];
        unfold written in Hs |- *; rewrite H
    end.
    + left. exact Hs.
    + right. rewrite written_of_app, Hs. reflexivity.
Qed.

(** Whatever the bus replies, a status render only reads: its calls are the
    Get of the event_log endpoints and then at most a GetObject and a GetAll,
    in this order. *)
Theorem getHwIsolationStatus_calls ext bus path st :
  exists cs,
    calls (final (getHwIsolationStatus ext bus path st))
    = (calls st ++ endpointsCall (path ++ "/event_log") :: cs)%list
    /\ (cs = []
        \/ (exists event, cs = [eventOwnerCall event])
        \/ exists event owner,
             cs = [eventOwnerCall event; getAllCall owner event]).
Proof.
  destruct (getHwIsolationStatus_shape ext bus path st)
    as [| | event | event | event owner ec ps].
  - exists []. split; [| auto].
    cbn [final]. autorewrite with events. reflexivity.
  - exists []. split; [| auto].
    cbn [final]. autorewrite with events. reflexivity.
  - exists [eventOwnerCall event]. split; [| eauto].
    cbn [final]. autorewrite with events. rewrite <- app_assoc. reflexivity.
  - exists [eventOwnerCall event]. split; [| eauto].
    cbn [final]. autorewrite with events. rewrite <- app_assoc. reflexivity.
  - exists [eventOwnerCall event; getAllCall owner event]. split; [| eauto].
    match goal with
    | |- context [fillStatus ext event ec ps ?s] =>
        assert (Hs : calls s
                     = (calls st
                          ++ [endpointsCall (path ++ "/event_log");
                              eventOwnerCall event;
                              getAllCall owner event])%list)
          by (autorewrite with events; rewrite <- !app_assoc; reflexivity);
        destruct (fillStatus_fails ext event ec ps s) as [H | H];
        unfold calls in Hs |- *; rewrite H
    end.
    + exact Hs.
    + rewrite calls_of_app, Hs. apply app_nil_r.
Qed.

(** ** The properties of the status event *)

Lemma conditions_inv j c :
  conditions j = Some (JArray [JObject c]) ->
  exists m ms,
    j = JObject m
    /\ obj_find "Status" m = Some (JObject ms)
    /\ obj_find "Conditions" ms = Some (JArray [JObject c]).
Proof.
  unfold conditions. cbn [lookup]. intros H.
  destruct j as [| | | | | m]; try discriminate.
  destruct (obj_find "Status" m) as [[| | | | | ms] |] eqn:Hs;
    try discriminate.
  destruct (obj_find "Conditions" ms) as [x |] eqn:Hc; [| discriminate].
  injection H as ->. eauto.
Qed.

(** A write into the condition object keeps its other members and the state
    of the status. *)
Lemma assign_condition_frame k v c j :
  conditions j = Some (JArray [JObject c]) ->
  exists j',
    assign (condition ++ [Key k]) v j = Some j'
    /\ assign_pointer ["Status"; "Conditions"; "0"; k] v j = Some j'
    /\ conditions j' = Some (JArray [JObject (obj_put k v c)])
    /\ status_state j' = status_state j.
Proof.
  intros H. destruct (conditions_inv j c H) as (m & ms & -> & Hs & Hc).
  exists (JObject
            (obj_put "Status"
               (JObject
                  (obj_put "Conditions" (JArray [JObject (obj_put k v c)])
                     ms)) m)).
  split; [| split; [| split]].
  - cbn [condition app assign child]. rewrite Hs. cbn [child]. rewrite Hc.
    cbn [child nth assign]. destruct (obj_find k c); reflexivity.
  - cbn [assign_pointer resolve_token child]. rewrite Hs.
    cbn [child resolve_token]. rewrite Hc.
    change (resolve_token "0" (JArray [JObject c])) with (Some (Index 0)).
    cbn [child nth resolve_token assign_pointer].
    destruct (obj_find k c); reflexivity.
  - unfold conditions. cbn [lookup]. rewrite obj_find_put_same.
    rewrite obj_find_put_same. reflexivity.
  - unfold status_state. cbn [lookup]. rewrite obj_find_put_same, Hs.
    rewrite obj_find_put_other by discriminate. reflexivity.
Qed.





(** Properties of other names than Associations, Timestamp, Message and
    Severity are passed over: they change nothing, whatever their values. *)
Theorem properties_loop_ignores_unknown ext obj properties st :
  Forall (fun property => known_key (fst property) = false) properties ->
  for_each (fillCondition ext obj) properties st = Returned tt st.
Proof.
  intros Hall. revert st.
  induction Hall as [| [key val] rest Hk _ IH]; intros st; [reflexivity |].
  cbn [for_each]. unfold bind. unfold known_key in Hk. cbn [fst] in Hk.
  apply orb_false_elim in Hk. destruct Hk as [Hk H4].
  apply orb_false_elim in Hk. destruct Hk as [Hk H3].
  apply orb_false_elim in Hk. destruct Hk as [H1 H2].
  unfold fillCondition. cbn [fst snd]. rewrite H1, H2, H3, H4.
  cbn [ret]. apply IH.
Qed.

Lemma properties_loop_ignores_unknown_witness :
  for_each
    (fillCondition Fixture.ext
       "/xyz/openbmc_project/logging/hw_isolation_status/1")
    [("Resolved", VString "false"); ("Id", VUint64 7)]
    (mkState Fixture.one_empty_condition [])
  = Returned tt (mkState Fixture.one_empty_condition []).
Proof.
  apply (properties_loop_ignores_unknown Fixture.ext
           "/xyz/openbmc_project/logging/hw_isolation_status/1"
           [("Resolved", VString "false"); ("Id", VUint64 7)]
           (mkState Fixture.one_empty_condition [])).
  repeat constructor.
Defined.

Lemma index_no_percent rest t :
  has_percent t = false -> index 0 (String "%" rest) t = None.
Proof.
  induction t as [| a t IH]; intros Hp; [reflexivity |].
  cbn in Hp. apply orb_false_elim in Hp. destruct Hp as [Ha Hp].
  cbn [index].
  assert (Hpre : prefix (String "%" rest) (String a t) = false).
  { apply not_true_is_false. intros Ht.
    apply prefix_correct in Ht. cbn in Ht. injection Ht as Ht _.
    subst a. discriminate Ha. }
  rewrite Hpre, (IH Hp). reflexivity.
Qed.

(** A registry message without a '%' character is kept as it is, whatever
    the arguments are. *)
Theorem fillMessageArgs_no_placeholder i messageArgs message :
  has_percent message = false ->
  fillMessageArgs i messageArgs message = message.
Proof.
  intros Hp. revert i. induction messageArgs as [| arg rest IH]; intros i.
  - reflexivity.
  - cbn [fillMessageArgs].
    change ("%" ++ to_string (S i)) with (String "%" (to_string (S i))).
    rewrite (index_no_percent (to_string (S i)) message Hp). apply IH.
Qed.

Lemma fillMessageArgs_no_placeholder_witness :
  fillMessageArgs 0 ["overheat"] "Hardware is isolated"
  = "Hardware is isolated".
Proof.
  apply (fillMessageArgs_no_placeholder 0 ["overheat"] "Hardware is isolated").
  reflexivity.
Defined.

(** ** The state of a rendered status *)

Lemma assign_status_member_frame k k' v j :
  k <> k' ->
  status_assignable j = true ->
  exists j',
    assign [Key "Status"; Key k] v j = Some j'
    /\ lookup [Key "Status"; Key k] j' = Some v
    /\ lookup [Key "Status"; Key k'] j' = lookup [Key "Status"; Key k'] j
    /\ status_assignable j' = true.
Proof.
  intros Hk. unfold status_assignable. intros H.
  assert (Hone : obj_find k' [(k, v)] = None).
  { cbn. destruct (String.eqb_spec k k'); [contradiction | reflexivity]. }
  destruct j as [| | | | | m]; try discriminate.
  - eexists. split; [reflexivity |].
    cbn. rewrite String.eqb_refl.
    destruct (String.eqb_spec k k'); [contradiction | auto].
  - cbn in H. cbn [assign child].
    destruct (obj_find "Status" m) as [[| | | | | ms] |] eqn:Hs;
      try discriminate; cbn [assign child put_child].
    + eexists. split; [reflexivity |]. cbn [lookup child].
      rewrite !obj_find_put_same, Hs. cbn [obj_find lookup].
      rewrite String.eqb_refl.
      destruct (String.eqb_spec k k'); [contradiction | auto].
    + destruct (obj_find k ms);
        (eexists; split; [reflexivity |]); cbn [lookup child];
        rewrite !obj_find_put_same, Hs;
        rewrite (obj_find_put_other k k' v ms Hk); auto.
    + eexists. split; [reflexivity |]. cbn [lookup child].
      rewrite !obj_find_put_same, Hs. cbn [obj_find lookup].
      rewrite String.eqb_refl.
      destruct (String.eqb_spec k k'); [contradiction | auto].
Qed.

Lemma fillStatus_head_rendered st :
  status_assignable (jsonValue st) = true ->
  exists j',
    (store (assign [Key "Status"; Key "State"] (JString "Disabled")) ;;
     store (assign [Key "Status"; Key "Conditions"] (JArray [JObject []])))
      st
    = Returned tt (set_json j' st)
    /\ rendered j'.
Proof.
  intros H.
  destruct (assign_status_member_frame "State" "Conditions"
              (JString "Disabled") (jsonValue st)) as (j1 & Ha1 & Hl1 & _ & H1);
    [discriminate | exact H |].
  destruct (assign_status_member_frame "Conditions" "State"
              (JArray [JObject []]) j1) as (j2 & Ha2 & Hl2 & Hf2 & _);
    [discriminate | exact H1 |].
  exists j2. split.
  - unfold bind, store. rewrite Ha1. cbn [jsonValue set_json]. rewrite Ha2.
    reflexivity.
  - split.
    + unfold status_state. rewrite Hf2. exact Hl1.
    + exists []. exact Hl2.
Qed.

Lemma store_condition_member_rendered k v st :
  rendered (jsonValue st) ->
  exists j',
    store (assign (condition ++ [Key k]) v) st = Returned tt (set_json j' st)
    /\ rendered j'.
Proof.
  intros [Hs [c Hc]].
  destruct (assign_condition_frame k v c (jsonValue st) Hc)
    as (j' & Ha & _ & Hc' & Hs').
  exists j'. split.
  - unfold store. rewrite Ha. reflexivity.
  - split; [rewrite Hs'; exact Hs | eexists; exact Hc'].
Qed.

Lemma store_condition_pointer_rendered k v st :
  rendered (jsonValue st) ->
  exists j',
    store (assign_pointer ["Status"; "Conditions"; "0"; k] v) st
    = Returned tt (set_json j' st)
    /\ rendered j'.
Proof.
  intros [Hs [c Hc]].
  destruct (assign_condition_frame k v c (jsonValue st) Hc)
    as (j' & _ & Ha & Hc' & Hs').
  exists j'. split.
  - unfold store. rewrite Ha. reflexivity.
  - split; [rewrite Hs'; exact Hs | eexists; exact Hc'].
Qed.

Lemma associations_loop_rendered ext associations st :
  rendered (jsonValue st) ->
  exists st',
    for_each
      (fun assoc : string * string * string =>
         let '(relation, _, target) := assoc in
         if relation =? "error_log" then
           let errPath := target in
           setErrorLogUri ext errPath logEntryPropPath true ;; ret Continue
         else ret Continue)
      associations st
    = Returned tt st'
    /\ rendered (jsonValue st').
Proof.
  revert st. induction associations as [| [[relation fwd] target] rest IH];
    intros st Hr.
  - exists st. split; [reflexivity | exact Hr].
  - cbn [for_each]. unfold bind at 1.
    destruct (relation =? "error_log").
    + destruct (store_condition_pointer_rendered "LogEntry"
                  (errorLogRef ext target true) st Hr) as (j' & Hs & Hj').
      unfold bind at 1, setErrorLogUri, logEntryPropPath. rewrite Hs.
      cbn [ret]. apply IH. exact Hj'.
    + cbn [ret]. apply IH. exact Hr.
Qed.

Lemma fillCondition_rendered ext obj property st :
  rendered (jsonValue st) ->
  exists f st',
    fillCondition ext obj property st = Returned f st'
    /\ rendered (jsonValue st').
Proof.
  intros Hr. destruct property as [key val]. unfold fillCondition.
  cbn [fst snd].
  assert (Hfail : forall f : Flow,
    exists (f' : Flow) st',
      (respond internalError ;; ret f) st = Returned f' st'
      /\ rendered (jsonValue st')).
  { intros f. eexists _, _. split; [reflexivity | exact Hr]. }
  destruct (key =? "Associations").
  { destruct val as [s | n | associations]; try apply Hfail.
    destruct (associations_loop_rendered ext associations st Hr)
      as (st' & Hl & Hr').
    exists Continue, st'. rewrite (bind_Returned _ _ _ _ _ Hl).
    split; [reflexivity | exact Hr']. }
  destruct (key =? "Timestamp").
  { destruct val as [s | n | associations]; try apply Hfail.
    destruct (store_condition_member_rendered "Timestamp"
                (JString (getDateTime ext n)) st Hr) as (j' & Hs & Hj').
    exists Continue, (set_json j' st). unfold bind. rewrite Hs.
    split; [reflexivity | exact Hj']. }
  destruct (key =? "Message").
  { destruct val as [s | n | associations]; try apply Hfail.
    destruct (getMessage ext "OpenBMC.0.2.HardwareIsolationReason")
      as [msgReg |]; [| apply Hfail].
    cbv zeta.
    destruct (store_condition_member_rendered "Message"
                (JString (fillMessageArgs 0 [s] (message msgReg))) st Hr)
      as (j1 & Hs1 & Hj1).
    destruct (store_condition_member_rendered "MessageArgs"
                (JArray (map JString [s])) (set_json j1 st) Hj1)
      as (j2 & Hs2 & Hj2).
    destruct (store_condition_member_rendered "MessageId"
                (JString "OpenBMC.0.2.HardwareIsolationReason")
                (set_json j2 (set_json j1 st)) Hj2)
      as (j3 & Hs3 & Hj3).
    exists Continue, (set_json j3 (set_json j2 (set_json j1 st))).
    unfold bind. rewrite Hs1, Hs2, Hs3. split; [reflexivity | exact Hj3]. }
  destruct (key =? "Severity").
  { destruct val as [s | n | associations]; try apply Hfail.
    unfold setSeverity, severityPropPath.
    assert (Hset : forall v,
      exists f st',
        (ok <- (store (assign_pointer ["Status"; "Conditions"; "0"; "Severity"]
                         (JString v)) ;; ret true) ;;
         if negb ok then ret Return else ret Continue) st
        = Returned f st'
        /\ rendered (jsonValue st')).
    { intros v.
      destruct (store_condition_pointer_rendered "Severity" (JString v) st Hr)
        as (j' & Hs & Hj').
      exists Continue, (set_json j' st). unfold bind. rewrite Hs.
      split; [reflexivity | exact Hj']. }
    split_ifs; try apply Hset.
    eexists _, _. split; [reflexivity | exact Hr]. }
  exists Continue, st. split; [reflexivity | exact Hr].
Qed.

Lemma properties_loop_rendered ext obj properties st :
  rendered (jsonValue st) ->
  exists st',
    for_each (fillCondition ext obj) properties st = Returned tt st'
    /\ rendered (jsonValue st').
Proof.
  revert st. induction properties as [| property rest IH]; intros st Hr.
  - exists st. split; [reflexivity | exact Hr].
  - destruct (fillCondition_rendered ext obj property st Hr)
      as (f & st1 & Hf & Hr1).
    cbn [for_each]. rewrite (bind_Returned _ _ _ _ _ Hf).
    destruct f; [apply IH; exact Hr1 |].
    exists st1. split; [reflexivity | exact Hr1].
Qed.

(** Once the properties of the status event are fetched, the resource is
    shown as Disabled: the render returns with [Status.State] "Disabled",
    whatever the properties are, also when one of them is malformed and the
    render ends with internalError. *)
Theorem getHwIsolationStatus_state_disabled
  ext bus path st endpoints event owner ifs properties :
  endpoints_reply bus (calls st) (endpointsCall (path ++ "/event_log"))
  = (0%Z, Some endpoints) ->
  findHwStatusEventObj ext endpoints = Some event ->
  object_reply bus
    (calls (log_call (endpointsCall (path ++ "/event_log")) st))
    (eventOwnerCall event)
  = (0%Z, [(owner, ifs)]) ->
  owner <> "" ->
  properties_reply bus
    (calls (log_call (eventOwnerCall event)
              (log_call (endpointsCall (path ++ "/event_log")) st)))
    (getAllCall owner event)
  = (0%Z, properties) ->
  status_assignable (jsonValue st) = true ->
  exists st',
    getHwIsolationStatus ext bus path st = Returned tt st'
    /\ status_state (jsonValue st') = Some (JString "Disabled").
Proof.
  intros He Hf Ho Hn Hp Hs.
  unfold endpointsCall, eventOwnerCall, getObjectCall, getAllCall in *.
  unfold getHwIsolationStatus, async_method_call.
  rewrite He. cbn [failed Z.eqb negb]. rewrite Hf, Ho.
  cbn [failed Z.eqb negb List.length Nat.ltb Nat.leb nth_error fst].
  destruct (String.eqb_spec owner ""); [contradiction |].
  rewrite Hp. unfold fillStatus. cbn [failed Z.eqb negb].
  match goal with
  | |- exists st', _ ?s = _ /\ _ =>
      destruct (fillStatus_head_rendered s Hs) as (j' & Hh & Hr);
      destruct (properties_loop_rendered ext event properties (set_json j' s)
                  Hr) as (st' & Hl & [Hst _])
  end.
  exists st'. split; [| exact Hst].
  unfold bind in Hh |- *.
  match goal with
  | |- context [store ?u ?s] =>
      destruct (store u s) as [[] st1 | st1 | st1]; try discriminate
  end.
  rewrite Hh. exact Hl.
Qed.

(** A status event with a severity that is not supported: the render ends
    with internalError and the state is Disabled all the same. *)
Lemma getHwIsolationStatus_state_disabled_witness :
  exists st',
    getHwIsolationStatus Fixture.ext Fixture.bus_bad_severity "/inv/cpu0"
      Fixture.st0
    = Returned tt st'
    /\ status_state (jsonValue st') = Some (JString "Disabled").
Proof.
  refine (getHwIsolationStatus_state_disabled Fixture.ext
            Fixture.bus_bad_severity "/inv/cpu0" Fixture.st0
            ["/xyz/openbmc_project/logging/hw_isolation_status/1"]
            "/xyz/openbmc_project/logging/hw_isolation_status/1"
            "xyz.openbmc_project.Logging" []
            [("Message", VString "overheat");
             ("Severity",
              VString "xyz.openbmc_project.Logging.Entry.Level.Critical")]
            eq_refl eq_refl eq_refl _ eq_refl eq_refl).
  discriminate.
Defined.
